(** * salt-state-java: the [java.trust_cert] state, embedded and verified

    The state module [java.py] converges a Java trust store towards
    "alias present".  Everything it does goes through the host: the file
    system ([os.path.realpath], [os.path.isdir], [os.walk]), the process
    environment ([os.putenv]) and child processes
    ([subprocess.check_output]).  The embedding below keeps the host
    abstract (a type class), threads the host state explicitly, records
    every host call in a trace, and models Python exceptions by a result
    type, so that both "what is returned" and "what was run" can be stated.

    Python 2 semantics are assumed (the module targets the Salt minions of
    its time): captured process output is a [str].  Arguments are strings
    without a NUL byte: an argument list that Python itself refuses before
    it starts the program is outside the model. *)

From Stdlib Require Import ZArith String Ascii List Bool Lia.
From stdpp Require Import base strings gmap list.

Local Open Scope string_scope.
Local Open Scope Z_scope.

(** ** Strings that cannot be written as plain literals *)

Definition LF : ascii := "010"%char.
Definition CR : ascii := "013"%char.
Definition nl : string := String LF EmptyString.
Definition dquote : string := String "034"%char EmptyString.

(** [os.sep] on the POSIX hosts the module runs on. *)
Definition os_sep : string := "/".

(** ** Python values used by the state *)

(** The three values stored under ['result']: [True], [False], [None]. *)
Inductive py_result : Type := PyTrue | PyFalse | PyNone.

(** The dict [ret] built at the top of [trust_cert]. *)
Record Ret : Type := mkRet {
  name : string;
  changes : gmap string string;
  result : py_result;
  comment : string
}.

(** Item assignments [ret['result'] = v], [ret['comment'] = c] and
    [ret['changes'] = d]. *)
Definition set_result (v : py_result) (r : Ret) : Ret :=
  mkRet (name r) (changes r) v (comment r).
Definition set_comment (c : string) (r : Ret) : Ret :=
  mkRet (name r) (changes r) (result r) c.
Definition set_changes (d : gmap string string) (r : Ret) : Ret :=
  mkRet (name r) d (result r) (comment r).

(** The dict [result_code]; its three keys are fixed, so it is a record. *)
Record ResultCode : Type := mkResultCode {
  rc_none : py_result;
  rc_failure : py_result;
  rc_success : py_result
}.

(** Truth value of a [str]-or-[None] in a condition. *)
Definition truthy (v : option string) : bool :=
  match v with
  | None => false
  | Some s => negb (String.eqb s "")
  end.

(** ** Child processes *)

Inductive stream : Type := Stdout | Stderr.

(** What a child wrote, in the order it wrote it. *)
Definition written : Type := list (stream * string).

Inductive ProcResult : Type :=
| Exited (returncode : Z) (out : written)
| NotLaunched.

Inductive PyExc : Type :=
| CalledProcessError (returncode : Z) (output : string)
| OSError.

Fixpoint stdout_of (out : written) : string :=
  match out with
  | [] => ""
  | (Stdout, s) :: rest => s ++ stdout_of rest
  | (Stderr, _) :: rest => stdout_of rest
  end.

Fixpoint combined_of (out : written) : string :=
  match out with
  | [] => ""
  | (_, s) :: rest => s ++ combined_of rest
  end.

(** What [check_output] captures: the child's stdout, with stderr merged
    into it when called with [stderr=subprocess.STDOUT]. *)
Definition captured (stderr_to_stdout : bool) (out : written) : string :=
  if stderr_to_stdout then combined_of out else stdout_of out.

(** Text mode of [universal_newlines=True]: CR LF and a lone CR read as LF. *)
Fixpoint universal_newlines (s : string) : string :=
  match s with
  | EmptyString => EmptyString
  | String c rest =>
      if Ascii.eqb c CR then
        match rest with
        | String c' rest' =>
            if Ascii.eqb c' LF then String LF (universal_newlines rest')
            else String LF (universal_newlines rest)
        | EmptyString => String LF EmptyString
        end
      else String c (universal_newlines rest)
  end.

(** ** Path helpers *)

Definition startswith_sep (s : string) : bool :=
  match s with
  | String c _ => Ascii.eqb c "/"%char
  | EmptyString => false
  end.

Fixpoint endswith_sep (s : string) : bool :=
  match s with
  | EmptyString => false
  | String c EmptyString => Ascii.eqb c "/"%char
  | String _ rest => endswith_sep rest
  end.

(** [posixpath.join] with two arguments. *)
Definition os_path_join (a b : string) : string :=
  if startswith_sep b then b
  else if String.eqb a "" || endswith_sep a then a ++ b
  else a ++ "/" ++ b.

(** [fnmatch.filter(names, 'cacerts')]: the pattern has no wildcard and
    POSIX [normcase] is the identity, so a name matches when it is equal. *)
Definition fnmatch_filter_cacerts (names : list string) : list string :=
  List.filter (fun n => String.eqb n "cacerts") names.

(** ** The host *)

Class HostOS (W : Type) : Type := {
  os_putenv : string -> string -> W -> W;
  os_path_realpath : W -> string -> string;
  os_path_isdir : W -> string -> bool;
  os_walk : W -> string -> list (string * list string * list string);
  popen : W -> list string -> ProcResult * W
}.

(** Host calls, as recorded in the trace. *)
Inductive Event : Type :=
| EvRealpath (path : string)
| EvIsdir (path : string)
| EvPutenv (key value : string)
| EvWalk (top : string)
| EvExec (argv : list string).

Inductive Res (A : Type) : Type :=
| Returned (a : A)
| Raised (e : PyExc).
Arguments Returned {A} a.
Arguments Raised {A} e.

(** ** The state threaded through the engine: the host and the trace *)

Record St (W : Type) : Type := mkSt { world : W; trace : list Event }.
Arguments mkSt {W} world trace.
Arguments world {W} s.
Arguments trace {W} s.

(** ** The command lines of the module *)

(** Line 141: the login-shell query. *)
Definition bash_query : list string :=
  ["/bin/bash"; "-c"; "source /etc/profile && echo -n $JAVA_HOME"].

(** Lines 57, 72, 82 and 93: the options passed to keytool. *)
Definition list_alias_opts (trust_store alias storepass : string) : list string :=
  ["-keystore"; trust_store; "-list"; "-alias"; alias; "-storepass"; storepass].

Definition list_opts (trust_store storepass : string) : list string :=
  ["-keystore"; trust_store; "-list"; "-storepass"; storepass].

Definition printcert_opts (cert_file : string) : list string :=
  ["-printcert"; "-file"; cert_file].

Definition importcert_opts (cert_file trust_store alias storepass : string) : list string :=
  ["-importcert"; "-trustcacerts"; "-file"; cert_file; "-keystore"; trust_store;
   "-alias"; alias; "-storepass"; storepass; "-noprompt"].

(** ** A concrete host

    A small executable host, used to run the engine on concrete inputs:
    one key store protected by a password, a login shell whose answer is
    fixed, and a keytool installed at the listed paths. *)

Module SampleHost.

Record host : Type := mkHost {
  dirs : list string;
  links : list (string * string);
  trees : list (string * list (string * list string * list string));
  shell : ProcResult;
  keytools : list string;
  store : string;
  password : string;
  aliases : list string;
  good_certs : list string;
  decode_error : written;
  environ : list (string * string)
}.

Definition mem (x : string) (l : list string) : bool := existsb (String.eqb x) l.

Definition assoc {A} (k : string) (l : list (string * A)) : option A :=
  match List.find (fun p => String.eqb (fst p) k) l with
  | Some (_, v) => Some v
  | None => None
  end.

Definition realpath (h : host) (p : string) : string :=
  match assoc p (links h) with
  | Some target => target
  | None => p
  end.

Definition isdir (h : host) (p : string) : bool := mem p (dirs h).

Definition walk (h : host) (top : string) : list (string * list string * list string) :=
  match assoc top (trees h) with
  | Some t => t
  | None => []
  end.

Definition setenv (k v : string) (h : host) : host :=
  mkHost (dirs h) (links h) (trees h) (shell h) (keytools h) (store h) (password h)
         (aliases h) (good_certs h) (decode_error h) ((k, v) :: environ h).

Definition add_alias (a : string) (h : host) : host :=
  mkHost (dirs h) (links h) (trees h) (shell h) (keytools h) (store h) (password h)
         (a :: aliases h) (good_certs h) (decode_error h) (environ h).

Definition keytool_error (msg : string) : ProcResult :=
  Exited 1 [(Stdout, "keytool error: " ++ msg)].

Definition opens_store (h : host) (ts sp : string) : bool :=
  String.eqb ts (store h) && String.eqb sp (password h).

Definition cannot_open : ProcResult :=
  keytool_error "java.io.IOException: Keystore was tampered with, or password was incorrect".

Definition keytool (h : host) (opts : list string) : ProcResult * host :=
  match opts with
  | [o] =>
      if String.eqb o "-help"
      then (Exited 0 [(Stderr, "Key and Certificate Management Tool")], h)
      else (keytool_error "Illegal option", h)
  | [o; _; f] =>
      if String.eqb o "-printcert" then
        if mem f (good_certs h) then (Exited 0 [(Stdout, "Owner: CN=Example Root")], h)
        else (Exited 1 (decode_error h), h)
      else (keytool_error "Illegal option", h)
  | [o; ts; _; _; sp] =>
      if String.eqb o "-keystore" then
        if opens_store h ts sp then (Exited 0 [(Stdout, "Keystore type: JKS")], h)
        else (cannot_open, h)
      else (keytool_error "Illegal option", h)
  | [o; ts; _; _; a; _; sp] =>
      if String.eqb o "-keystore" then
        if opens_store h ts sp then
          if mem a (aliases h) then (Exited 0 [(Stdout, a ++ ", trustedCertEntry")], h)
          else (keytool_error ("java.lang.Exception: Alias <" ++ a ++ "> does not exist"), h)
        else (cannot_open, h)
      else (keytool_error "Illegal option", h)
  | [o; _; _; f; _; ts; _; a; _; sp; _] =>
      if String.eqb o "-importcert" then
        if opens_store h ts sp then
          if mem f (good_certs h) then
            if mem a (aliases h)
            then (keytool_error ("java.lang.Exception: Certificate not imported, alias <"
                                 ++ a ++ "> already exists"), h)
            else (Exited 0 [(Stderr, "Certificate was added to keystore")], add_alias a h)
          else (keytool_error "java.lang.Exception: Input not an X.509 certificate", h)
        else (cannot_open, h)
      else (keytool_error "Illegal option", h)
  | _ => (keytool_error "Illegal option", h)
  end.

Definition spawn (h : host) (argv : list string) : ProcResult * host :=
  match argv with
  | prog :: rest =>
      if String.eqb prog "/bin/bash" then
        match rest with
        | [_; _] => (shell h, h)
        | _ => (Exited 2 [], h)
        end
      else if mem prog (keytools h) then keytool h rest
      else (NotLaunched, h)
  | [] => (NotLaunched, h)
  end.

#[global] Instance host_os : HostOS host := {
  os_putenv := setenv;
  os_path_realpath := realpath;
  os_path_isdir := isdir;
  os_walk := walk;
  popen := spawn
}.

(** A host with a JDK under [/usr/lib/jvm/java-8], reachable through the
    symlink [/usr/lib/jvm/default], and [keytool] on the system path. *)
Definition jdk8 : host := {|
  dirs := ["/usr/lib/jvm/java-8"];
  links := [("/usr/lib/jvm/default", "/usr/lib/jvm/java-8")];
  trees := [("/usr/lib/jvm/java-8",
             [("/usr/lib/jvm/java-8", ["bin"; "jre"], ["release"]);
              ("/usr/lib/jvm/java-8/jre/lib/security", [], ["java.policy"; "cacerts"])]);
            ("/usr/lib/jvm/default",
             [("/usr/lib/jvm/default", ["bin"; "jre"], ["release"]);
              ("/usr/lib/jvm/default/jre/lib/security", [], ["java.policy"; "cacerts"])])];
  shell := Exited 0 [(Stdout, "/usr/lib/jvm/java-8")];
  keytools := ["/usr/bin/keytool"; "/usr/lib/jvm/java-8/bin/keytool"];
  store := "/usr/lib/jvm/java-8/jre/lib/security/cacerts";
  password := "changeit";
  aliases := ["verisignclass3ca"];
  good_certs := ["/etc/ssl/myca.pem"];
  decode_error := [(Stderr, "keytool error: java.lang.Exception: Failed to parse input")];
  environ := []
|}.

(** What discovery finds on [jdk8] without an override, and the state of
    the engine once it has run. *)
Definition jdk8_home : string := "/usr/lib/jvm/java-8".
Definition jdk8_store : string := "/usr/lib/jvm/java-8/jre/lib/security/cacerts".
Definition system_keytool : string := "/usr/bin/keytool".
Definition myca_pem : string := "/etc/ssl/myca.pem".

Definition discovery_trace : list Event :=
  [EvExec bash_query; EvPutenv "JAVA_HOME" jdk8_home; EvWalk jdk8_home;
   EvExec [system_keytool; "-help"]].

Definition discovered (h : host) : St host :=
  mkSt (setenv "JAVA_HOME" jdk8_home h) discovery_trace.

(** The host calls of a live invocation on [jdk8] that imports [myca], and
    the state it leaves. *)
Definition import_trace : list Event :=
  discovery_trace
  ++ [EvExec (system_keytool :: list_alias_opts jdk8_store "myca" "changeit");
      EvExec (system_keytool :: list_opts jdk8_store "changeit");
      EvExec (system_keytool :: printcert_opts myca_pem);
      EvExec (system_keytool :: importcert_opts myca_pem jdk8_store "myca" "changeit")].

Definition imported : St host :=
  mkSt (add_alias "myca" (setenv "JAVA_HOME" jdk8_home jdk8)) import_trace.

(** The value of [JAVA_HOME] in the environment of the process. *)
Definition exported_home (h : host) : option string := assoc "JAVA_HOME" (environ h).

(** The same host with another answer from the login shell, or with
    keytool installed elsewhere. *)
Definition with_shell (r : ProcResult) (h : host) : host :=
  mkHost (dirs h) (links h) (trees h) r (keytools h) (store h) (password h)
         (aliases h) (good_certs h) (decode_error h) (environ h).

Definition with_keytools (l : list string) (h : host) : host :=
  mkHost (dirs h) (links h) (trees h) (shell h) l (store h) (password h)
         (aliases h) (good_certs h) (decode_error h) (environ h).

(** Two hosts that differ at most in the aliases of the store and in the
    environment. *)
Definition same_installation (h h' : host) : Prop :=
  dirs h' = dirs h /\ links h' = links h /\ trees h' = trees h /\ shell h' = shell h
  /\ keytools h' = keytools h /\ good_certs h' = good_certs h
  /\ decode_error h' = decode_error h.

End SampleHost.

(** ** A scripted host

    A host whose programs answer from a script: every program started
    consumes the next scripted result, and none can be started once the
    script is used up.  The file system is fixed. *)

Module ScriptedHost.

Record host : Type := mkHost {
  script : list ProcResult;
  directories : list string;
  tree : list (string * list string * list string)
}.

Definition spawn (h : host) (argv : list string) : ProcResult * host :=
  match script h with
  | r :: rest => (r, mkHost rest (directories h) (tree h))
  | [] => (NotLaunched, h)
  end.

#[global] Instance host_os : HostOS host := {
  os_putenv := fun _ _ h => h;
  os_path_realpath := fun _ p => p;
  os_path_isdir := fun h p => existsb (String.eqb p) (directories h);
  os_walk := fun h _ => tree h;
  popen := spawn
}.

(** A JDK under [/opt/java] with its trust store in place. *)
Definition opt_java_tree : list (string * list string * list string) :=
  [("/opt/java", ["bin"; "lib"], ["release"; "cacerts.bak"]);
   ("/opt/java/lib/security", [], ["CACERTS"; "cacerts"; "java.security"]);
   ("/opt/java/jre/lib/security", [], ["cacerts"])].

Definition shell_says_opt_java : ProcResult := Exited 0 [(Stdout, "/opt/java")].

(** The host once the first [n] scripted programs have run. *)
Definition skip (n : nat) (h : host) : host :=
  mkHost (skipn n (script h)) (directories h) (tree h).

(** A JDK whose tree has no file named [cacerts]. *)
Definition no_store : host :=
  mkHost [shell_says_opt_java] []
         [("/opt/java", ["bin"], ["release"; "CACERTS"; "cacerts.bak"])].

(** Both keytool candidates answer [-help] with a non-zero status. *)
Definition no_keytool : host :=
  mkHost [shell_says_opt_java; Exited 1 []; Exited 126 [(Stderr, "cannot execute")]]
         [] opt_java_tree.

(** Only the keytool of the Java home works. *)
Definition home_keytool_only : host :=
  mkHost [Exited 1 [(Stderr, "wrapper: no default JVM")];
          Exited 0 [(Stderr, "Key and Certificate Management Tool")]]
         [] opt_java_tree.

(** Every probe passes and the import is refused. *)
Definition refused_import : host :=
  mkHost [shell_says_opt_java;
          Exited 0 [(Stderr, "Key and Certificate Management Tool")];
          Exited 1 [(Stdout, "keytool error: java.lang.Exception: Alias <myca> does not exist")];
          Exited 0 [(Stdout, "Keystore type: JKS")];
          Exited 0 [(Stdout, "Owner: CN=Example Root")];
          Exited 1 [(Stdout, "keytool error: java.io.FileNotFoundException: ");
                    (Stderr, "/opt/java/lib/security/cacerts (Permission denied)")]]
         [] opt_java_tree.

End ScriptedHost.

(** ** A host that needs the export

    Here [/etc/profile] does not set [JAVA_HOME]: the login shell reports
    whatever the process has exported, and keytool is a wrapper that
    refuses to run unless [JAVA_HOME] points at the JDK.  Only bash and
    that wrapper are installed. *)

Module InheritingHost.

Record host : Type := mkHost {
  java_home_var : option string;
  entries : list string
}.

Definition jdk : string := "/opt/jdk".

Definition setenv (k v : string) (h : host) : host :=
  if String.eqb k "JAVA_HOME" then mkHost (Some v) (entries h) else h.

Definition has (a : string) (l : list string) : bool := existsb (String.eqb a) l.

Definition refused : ProcResult :=
  Exited 1 [(Stderr, "Error: JAVA_HOME is not defined correctly.")].

Definition keytool (h : host) (opts : list string) : ProcResult * host :=
  match opts with
  | [_] => (Exited 0 [(Stderr, "Key and Certificate Management Tool")], h)
  | [_; _; _] => (Exited 0 [(Stdout, "Owner: CN=Example Root")], h)
  | [_; _; _; _; _] => (Exited 0 [(Stdout, "Keystore type: JKS")], h)
  | [_; _; _; _; a; _; _] =>
      if has a (entries h) then (Exited 0 [(Stdout, a ++ ", trustedCertEntry")], h)
      else (Exited 1 [(Stdout, "keytool error: java.lang.Exception: Alias <" ++ a
                               ++ "> does not exist")], h)
  | [_; _; _; _; _; _; _; a; _; _; _] =>
      if has a (entries h)
      then (Exited 1 [(Stdout, "keytool error: java.lang.Exception: Certificate not imported, alias <"
                               ++ a ++ "> already exists")], h)
      else (Exited 0 [(Stderr, "Certificate was added to keystore")],
            mkHost (java_home_var h) (a :: entries h))
  | _ => (Exited 1 [(Stdout, "keytool error: Illegal option")], h)
  end.

Definition spawn (h : host) (argv : list string) : ProcResult * host :=
  match argv with
  | prog :: rest =>
      if String.eqb prog "/bin/bash" then
        (Exited 0 [(Stdout, match java_home_var h with Some v => v | None => "" end)], h)
      else
        match java_home_var h with
        | Some v => if String.eqb v jdk then keytool h rest else (refused, h)
        | None => (refused, h)
        end
  | [] => (NotLaunched, h)
  end.

#[global] Instance host_os : HostOS host := {
  os_putenv := setenv;
  os_path_realpath := fun _ p => p;
  os_path_isdir := fun _ p => String.eqb p jdk;
  os_walk := fun _ top =>
               if String.eqb top jdk then [(jdk ++ "/lib/security", [], ["cacerts"])]
               else [];
  popen := spawn
}.


(** The host calls of a live invocation with the override [/opt/jdk] that
    imports [myca], and the state it leaves. *)
Definition import_trace : list Event :=
  [EvRealpath jdk; EvIsdir jdk; EvPutenv "JAVA_HOME" jdk; EvWalk jdk;
   EvExec ["/usr/bin/keytool"; "-help"];
   EvExec ("/usr/bin/keytool"
           :: list_alias_opts "/opt/jdk/lib/security/cacerts" "myca" "changeit");
   EvExec ("/usr/bin/keytool" :: list_opts "/opt/jdk/lib/security/cacerts" "changeit");
   EvExec ("/usr/bin/keytool" :: printcert_opts "/etc/ssl/myca.pem");
   EvExec ("/usr/bin/keytool"
           :: importcert_opts "/etc/ssl/myca.pem" "/opt/jdk/lib/security/cacerts"
                "myca" "changeit")].

Definition imported : St host :=
  mkSt (mkHost (Some jdk) ["myca"; "verisignclass3ca"]) import_trace.

End InheritingHost.

Section Engine.
Context {W : Type} `{HostOS W}.

Definition M (A : Type) : Type := St W -> Res A * St W.

Definition ret_ {A} (a : A) : M A := fun s => (Returned a, s).

Definition bind {A B} (m : M A) (k : A -> M B) : M B :=
  fun s => match m s with
           | (Returned a, s') => k a s'
           | (Raised e, s') => (Raised e, s')
           end.

(** [try: m / except CalledProcessError as e: on_err / else: on_ok].
    Any other exception goes through. *)
Definition try_except_CalledProcessError {A B}
    (m : M A) (on_err : Z -> string -> M B) (on_ok : A -> M B) : M B :=
  fun s => match m s with
           | (Returned a, s') => on_ok a s'
           | (Raised (CalledProcessError rc o), s') => on_err rc o s'
           | (Raised OSError, s') => (Raised OSError, s')
           end.

Definition log (e : Event) (s : St W) : St W :=
  mkSt (world s) (trace s ++ [e]).

Definition realpath (p : string) : M string :=
  fun s => (Returned (os_path_realpath (world s) p), log (EvRealpath p) s).

Definition isdir (p : string) : M bool :=
  fun s => (Returned (os_path_isdir (world s) p), log (EvIsdir p) s).

Definition putenv (k v : string) : M unit :=
  fun s => (Returned tt, mkSt (os_putenv k v (world s)) (trace s ++ [EvPutenv k v])).

Definition walk (top : string) : M (list (string * list string * list string)) :=
  fun s => (Returned (os_walk (world s) top), log (EvWalk top) s).

Definition decode (text : bool) (o : string) : string :=
  if text then universal_newlines o else o.

(** [subprocess.check_output(argv, stderr=..., universal_newlines=...)]:
    the captured output when the child exits with status 0,
    [CalledProcessError] carrying it when the status is anything else, and
    [OSError] when the program cannot be executed at all. *)
Definition check_output (stderr_to_stdout text : bool) (argv : list string) : M string :=
  fun s =>
    let '(r, w') := popen (world s) argv in
    let s' := mkSt w' (trace s ++ [EvExec argv]) in
    match r with
    | NotLaunched => (Raised OSError, s')
    | Exited rc out =>
        let o := decode text (captured stderr_to_stdout out) in
        if rc =? 0 then (Returned o, s')
        else (Raised (CalledProcessError rc o), s')
    end.

Notation "'do' x <- m ; k" := (bind m (fun x => k))
  (at level 10, x name, m at level 100, k at level 200).

(** *** [_find_java_home] *)

Definition _find_java_home_shell : M (option string) :=
  try_except_CalledProcessError
    (check_output false true bash_query)
    (fun _ _ => ret_ None)
    (fun jh => ret_ (Some jh)).

Definition _find_java_home (java_home : option string) : M (option string) :=
  match java_home with
  | Some jh =>
      if truthy java_home then
        do rp <- realpath jh ;
        do d <- isdir rp ;
        if (d : bool) then ret_ (Some jh) else _find_java_home_shell
      else _find_java_home_shell
  | None => _find_java_home_shell
  end.

(** *** [_find_trust_store] *)

Definition _find_trust_store (java_home : string) : M (option string) :=
  do tree <- walk java_home ;
  let ret :=
    flat_map (fun '(root, _, filenames) =>
                List.map (os_path_join root) (fnmatch_filter_cacerts filenames))
             tree in
  match ret with
  | [] => ret_ None
  | first :: _ => ret_ (Some first)
  end.

(** *** [_find_keytool] *)

Fixpoint _find_keytool_loop (candidates : list string) : M (option string) :=
  match candidates with
  | [] => ret_ None
  | keytool :: rest =>
      try_except_CalledProcessError
        (check_output true false [keytool; "-help"])
        (fun _ _ => _find_keytool_loop rest)
        (fun _ => ret_ (Some keytool))
  end.

Definition keytool_candidates (java_home : string) : list string :=
  ["/usr/bin/keytool"; java_home ++ os_sep ++ "bin" ++ os_sep ++ "keytool"].

Definition _find_keytool (java_home : string) : M (option string) :=
  _find_keytool_loop (keytool_candidates java_home).

(** *** [trust_cert] *)

Definition result_code (test : bool) : ResultCode :=
  let live := mkResultCode PyTrue PyFalse PyTrue in
  if test then mkResultCode (rc_none live) PyNone PyNone else live.

Definition added_changes (alias : string) : gmap string string :=
  <["new" := alias]> (<["old" := ""]> ∅).

Definition msg_was_added (alias : string) : string :=
  "Certificate " ++ dquote ++ alias ++ dquote ++ " was added as a trusted root.".

Definition msg_will_be_added (alias : string) : string :=
  "Certificate " ++ dquote ++ alias ++ dquote ++ " will be added as a trusted root.".

(** Lines 92-116: the apply step.  [ret] is the dict built at line 21,
    untouched so far. *)
Definition install (test : bool) (ret : Ret) (keytool trust_store : string)
    (cert_file alias storepass : string) : M Ret :=
  let rc := result_code test in
  if negb test then
    try_except_CalledProcessError
      (check_output true false
         (keytool :: importcert_opts cert_file trust_store alias storepass))
      (fun _ output =>
         ret_ (set_comment output (set_result (rc_failure rc) ret)))
      (fun _ =>
         ret_ (set_changes (added_changes alias)
                 (set_comment (msg_was_added alias)
                    (set_result (rc_success rc) ret))))
  else
    ret_ (set_changes (added_changes alias)
            (set_comment (msg_will_be_added alias)
               (set_result (rc_success rc) ret))).

(** Lines 56-116: the keytool probes and the apply step, entered once the
    three discovery steps have succeeded. *)
Definition converge (test : bool) (ret : Ret) (keytool trust_store : string)
    (cert_file alias storepass : string) : M Ret :=
  let rc := result_code test in
  try_except_CalledProcessError
    (check_output true false (keytool :: list_alias_opts trust_store alias storepass))
    (fun _ _ =>
       try_except_CalledProcessError
         (check_output true false (keytool :: list_opts trust_store storepass))
         (fun _ output =>
            ret_ (set_comment ("Keystore " ++ trust_store ++ " problem:" ++ nl ++ output)
                    (set_result (rc_failure rc) ret)))
         (fun _ =>
            try_except_CalledProcessError
              (check_output false false (keytool :: printcert_opts cert_file))
              (fun _ output =>
                 ret_ (set_comment
                         ("File " ++ cert_file ++ " is not a valid certificate:"
                          ++ nl ++ output)
                         (set_result (rc_failure rc) ret)))
              (fun _ => install test ret keytool trust_store cert_file alias storepass)))
    (fun _ =>
       ret_ (set_comment "CA alias exists in trust store."
               (set_result (rc_none rc) ret))).

(** Lines 7-54, then [converge].  [test] is [__opts__['test']]; at the call
    site [storepass] defaults to ['changeit'] and [java_home] to [None]. *)
Definition trust_cert (test : bool) (name_ cert_file alias storepass : string)
    (java_home : option string) : M Ret :=
  let ret := mkRet name_ ∅ PyFalse "" in
  let rc := result_code test in
  do java_home <- _find_java_home java_home ;
  match java_home with
  | Some jh =>
      if truthy java_home then
        do _u <- putenv "JAVA_HOME" jh ;
        do trust_store <- _find_trust_store jh ;
        match trust_store with
        | Some ts =>
            if truthy trust_store then
              do keytool <- _find_keytool jh ;
              match keytool with
              | Some kt =>
                  if truthy keytool then
                    converge test ret kt ts cert_file alias storepass
                  else
                    ret_ (set_comment "Could not find keytool binary."
                            (set_result (rc_failure rc) ret))
              | None =>
                  ret_ (set_comment "Could not find keytool binary."
                          (set_result (rc_failure rc) ret))
              end
            else
              ret_ (set_comment "Could not find Java trust store."
                      (set_result (rc_failure rc) ret))
        | None =>
            ret_ (set_comment "Could not find Java trust store."
                    (set_result (rc_failure rc) ret))
        end
      else
        ret_ (set_comment "Java is not installed" (set_result (rc_none rc) ret))
  | None =>
      ret_ (set_comment "Java is not installed" (set_result (rc_none rc) ret))
  end.

Definition default_storepass : string := "changeit".

(** ** Traces

    Replaying a trace on a host state: only [os.putenv] and child
    processes act on the host. *)

Definition replay1 (e : Event) (w : W) : W :=
  match e with
  | EvPutenv k v => os_putenv k v w
  | EvExec argv => snd (popen w argv)
  | EvRealpath _ | EvIsdir _ | EvWalk _ => w
  end.

Definition replay (evs : list Event) (w : W) : W :=
  fold_left (fun w e => replay1 e w) evs w.

(** [s'] is [s] after the host calls [evs], in that order. *)
Definition steps (s s' : St W) (evs : list Event) : Prop :=
  trace s' = (trace s ++ evs)%list /\ world s' = replay evs (world s).

(** Every host call of [m] satisfies [P]. *)
Definition emits (P : Event -> Prop) {A} (m : M A) : Prop :=
  forall s r s', m s = (r, s') -> exists evs, steps s s' evs /\ Forall P evs.

(** [s] ends with [suffix]. *)
Fixpoint endswith (suffix s : string) : bool :=
  String.eqb s suffix
  || match s with
     | String _ rest => endswith suffix rest
     | EmptyString => false
     end.

(** The paths [_find_keytool] may try: [/usr/bin/keytool] and
    [<java_home>/bin/keytool]. *)
Definition is_keytool_path (prog : string) : bool := endswith "/bin/keytool" prog.

Definition is_bash_query (argv : list string) : bool :=
  match argv with
  | [sh; c; script] =>
      String.eqb sh "/bin/bash" && String.eqb c "-c"
      && String.eqb script "source /etc/profile && echo -n $JAVA_HOME"
  | _ => false
  end.

Definition is_help (argv : list string) : bool :=
  match argv with
  | [prog; o] => is_keytool_path prog && String.eqb o "-help"
  | _ => false
  end.

(** [keytool -keystore <store> -list ...], with or without [-alias]. *)
Definition is_list (argv : list string) : bool :=
  match argv with
  | prog :: o :: _ :: l :: _ =>
      is_keytool_path prog && String.eqb o "-keystore" && String.eqb l "-list"
  | _ => false
  end.

Definition is_printcert (argv : list string) : bool :=
  match argv with
  | [prog; o; f; _] =>
      is_keytool_path prog && String.eqb o "-printcert" && String.eqb f "-file"
  | _ => false
  end.

Definition is_importcert (argv : list string) : bool :=
  match argv with
  | _ :: o :: _ => String.eqb o "-importcert"
  | _ => false
  end.

(** Host calls of the three discovery steps: file-system reads, the export
    of [JAVA_HOME], the login-shell query and [keytool -help]. *)
Definition discovery_event (e : Event) : bool :=
  match e with
  | EvExec argv => is_bash_query argv || is_help argv
  | EvPutenv k _ => String.eqb k "JAVA_HOME"
  | EvRealpath _ | EvIsdir _ | EvWalk _ => true
  end.

(** The read-only host calls: discovery, the two listings and the
    certificate probe. *)
Definition probe_event (e : Event) : bool :=
  discovery_event e
  || match e with
     | EvExec argv => is_list argv || is_printcert argv
     | _ => false
     end.

(** The one host call that writes to the trust store. *)
Definition mutating (e : Event) : bool :=
  match e with
  | EvExec argv => is_importcert argv
  | _ => false
  end.

(** Every host call the engine can make: the probes and the import. *)
Definition engine_event (e : Event) : bool :=
  probe_event e
  || match e with
     | EvExec (prog :: rest) => is_keytool_path prog && is_importcert (prog :: rest)
     | _ => false
     end.

Definition is_discovery (e : Event) : Prop := discovery_event e = true.
Definition is_probe (e : Event) : Prop := probe_event e = true.
Definition is_engine (e : Event) : Prop := engine_event e = true.
Definition not_mutating (e : Event) : Prop := mutating e = false.

(** *** What is assumed of the host for idempotence

    The engine keeps no state between two invocations; what the second one
    sees is up to the host: the file system, the login shell, keytool, and
    the environment of the process, which the first invocation changed by
    exporting [JAVA_HOME].  The assumptions below are about commands the
    engine runs and about exporting a value again; nothing is assumed of
    the first export of a new value beyond the file system. *)

(** The command lines of discovery, and all those of the engine. *)
Definition discovery_command (argv : list string) : bool :=
  is_bash_query argv || is_help argv.

Definition engine_command (argv : list string) : bool :=
  engine_event (EvExec argv).

(** What the login shell reports on [w]: the outcome of the
    [check_output] of line 141. *)
Definition shell_answer (w : W) : Res string :=
  fst (check_output false true bash_query (mkSt w [])).

(** The file system looks the same on [w'] as on [w]. *)
Definition same_files (w w' : W) : Prop :=
  (forall p, os_path_realpath w' p = os_path_realpath w p)
  /\ (forall p, os_path_isdir w' p = os_path_isdir w p)
  /\ (forall top, os_walk w' top = os_walk w top).

(** Discovery gets the same answers on [w'] as on [w]. *)
Definition same_discovery (w w' : W) : Prop :=
  (forall p, os_path_realpath w' p = os_path_realpath w p)
  /\ (forall p, os_path_isdir w' p = os_path_isdir w p)
  /\ (forall top, os_walk w' top = os_walk w top)
  /\ (forall argv, is_bash_query argv || is_help argv = true ->
                   fst (popen w' argv) = fst (popen w argv)).

(** [keytool -list -alias] exits with status 0 on [w]. *)
Definition alias_listed (w : W) (kt ts alias storepass : string) : Prop :=
  exists out, fst (popen w (kt :: list_alias_opts ts alias storepass)) = Exited 0 out.



(** [exported w] is the value of [JAVA_HOME] in the environment of the
    process on [w]. *)
Record host_contract (exported : W -> option string) : Prop := {
  (** [os.putenv] sets the variable *)
  export_sets :
    forall v w, exported (os_putenv "JAVA_HOME" v w) = Some v;
  (** a child process does not change the environment of its parent *)
  command_keeps_export :
    forall argv w, engine_command argv = true ->
                   exported (snd (popen w argv)) = exported w;
  (** no command of the engine changes what discovery finds *)
  command_keeps_discovery :
    forall argv w, engine_command argv = true ->
                   same_discovery w (snd (popen w argv));
  (** exporting the value that is exported already changes nothing *)
  reexport_keeps_discovery :
    forall v w, exported w = Some v ->
                same_discovery w (os_putenv "JAVA_HOME" v w);
  (** an export does not touch the file system *)
  export_keeps_files :
    forall v w, same_files w (os_putenv "JAVA_HOME" v w);
  (** a shell that reports [v] still reports [v] once [v] is exported *)
  export_of_answer :
    forall v w, shell_answer w = Returned v ->
                shell_answer (os_putenv "JAVA_HOME" v w) = Returned v;
  (** discovery does not remove an alias from a store *)
  discovery_keeps_alias :
    forall argv w kt ts alias storepass,
      discovery_command argv = true ->
      alias_listed w kt ts alias storepass ->
      alias_listed (snd (popen w argv)) kt ts alias storepass;
  reexport_keeps_alias :
    forall v w kt ts alias storepass,
      exported w = Some v ->
      alias_listed w kt ts alias storepass ->
      alias_listed (os_putenv "JAVA_HOME" v w) kt ts alias storepass;
  (** a successful import makes the alias listable *)
  import_adds_alias :
    forall w kt cert_file ts alias storepass out w',
      is_keytool_path kt = true ->
      popen w (kt :: importcert_opts cert_file ts alias storepass) = (Exited 0 out, w') ->
      alias_listed w' kt ts alias storepass
}.

(** All three discovery steps succeed from [s], leaving the engine in [s']
    with installation root [jh], trust store [ts] and keytool [kt]. *)
Definition discovers (java_home : option string) (s : St W)
    (jh ts kt : string) (s' : St W) : Prop :=
  exists s1 s2,
    _find_java_home java_home s = (Returned (Some jh), s1)
    /\ jh <> ""
    /\ _find_trust_store jh (snd (putenv "JAVA_HOME" jh s1)) = (Returned (Some ts), s2)
    /\ _find_keytool jh s2 = (Returned (Some kt), s').

Definition is_code (test : bool) (v : py_result) : Prop :=
  v = rc_none (result_code test)
  \/ v = rc_failure (result_code test)
  \/ v = rc_success (result_code test).

(** [m] raises nothing but [OSError], and only when the host could not
    start a program. *)
Definition launch_failure : Prop :=
  exists w argv, fst (popen w argv) = NotLaunched.

Definition raises_only_OSError {A} (m : M A) : Prop :=
  forall s e s', m s = (Raised e, s') -> e = OSError /\ launch_failure.

(** Host calls of [_find_java_home]: the two file-system checks of the
    override and the login-shell query. *)
Definition home_event (e : Event) : bool :=
  match e with
  | EvRealpath _ | EvIsdir _ => true
  | EvExec argv => is_bash_query argv
  | EvPutenv _ _ | EvWalk _ => false
  end.

Definition is_home_event (e : Event) : Prop := home_event e = true.

(** A keytool candidate being run, with whatever options. *)
Definition keytool_call (e : Event) : bool :=
  match e with
  | EvExec (prog :: _) => is_keytool_path prog
  | _ => false
  end.

Definition is_keytool_call (e : Event) : Prop := keytool_call e = true.

(** A directory of the walk that holds a file named [cacerts]. *)
Definition holds_cacerts (t : string * list string * list string) : Prop :=
  In "cacerts" (snd t).

(** ** Reasoning principles for the monad *)

Lemma bind_returned {A B} (m : M A) (k : A -> M B) s a s' :
  m s = (Returned a, s') -> bind m k s = k a s'.
Proof. unfold bind. intros ->. reflexivity. Qed.

Lemma bind_raised {A B} (m : M A) (k : A -> M B) s e s' :
  m s = (Raised e, s') -> bind m k s = (Raised e, s').
Proof. unfold bind. intros ->. reflexivity. Qed.

Lemma try_returned {A B} (m : M A) (h : Z -> string -> M B) (k : A -> M B) s a s' :
  m s = (Returned a, s') -> try_except_CalledProcessError m h k s = k a s'.
Proof. unfold try_except_CalledProcessError. intros ->. reflexivity. Qed.

Lemma try_caught {A B} (m : M A) (h : Z -> string -> M B) (k : A -> M B) s rc o s' :
  m s = (Raised (CalledProcessError rc o), s') ->
  try_except_CalledProcessError m h k s = h rc o s'.
Proof. unfold try_except_CalledProcessError. intros ->. reflexivity. Qed.

Lemma try_uncaught {A B} (m : M A) (h : Z -> string -> M B) (k : A -> M B) s s' :
  m s = (Raised OSError, s') ->
  try_except_CalledProcessError m h k s = (Raised OSError, s').
Proof. unfold try_except_CalledProcessError. intros ->. reflexivity. Qed.

Lemma check_output_zero b text argv s out w' :
  popen (world s) argv = (Exited 0 out, w') ->
  check_output b text argv s
  = (Returned (decode text (captured b out)), mkSt w' (trace s ++ [EvExec argv])).
Proof. unfold check_output. intros ->. reflexivity. Qed.

Lemma check_output_nonzero b text argv s rc out w' :
  popen (world s) argv = (Exited rc out, w') -> rc <> 0 ->
  check_output b text argv s
  = (Raised (CalledProcessError rc (decode text (captured b out))),
     mkSt w' (trace s ++ [EvExec argv])).
Proof.
  unfold check_output. intros -> Hrc.
  destruct (Z.eqb_spec rc 0) as [E|E]; [contradiction|reflexivity].
Qed.

Lemma check_output_not_launched b text argv s w' :
  popen (world s) argv = (NotLaunched, w') ->
  check_output b text argv s = (Raised OSError, mkSt w' (trace s ++ [EvExec argv])).
Proof. unfold check_output. intros ->. reflexivity. Qed.

(** ** The discovery steps *)

Lemma universal_newlines_empty : universal_newlines "" = "".
Proof. reflexivity. Qed.

Lemma os_path_join_cacerts root : os_path_join root "cacerts" <> "".
Proof.
  unfold os_path_join; simpl.
  destruct (String.eqb root "" || endswith_sep root); destruct root; discriminate.
Qed.

Lemma fnmatch_filter_cacerts_spec names f :
  In f (fnmatch_filter_cacerts names) -> f = "cacerts".
Proof.
  unfold fnmatch_filter_cacerts. intros Hin.
  apply filter_In in Hin as [_ Heq]. now apply String.eqb_eq in Heq.
Qed.

(** The walk cannot raise, and a store it finds has a non-empty path. *)
Lemma _find_trust_store_returns java_home s :
  exists o, _find_trust_store java_home s = (Returned o, log (EvWalk java_home) s)
            /\ (forall ts, o = Some ts -> truthy o = true).
Proof.
  unfold _find_trust_store, bind, walk.
  set (found := flat_map _ _).
  assert (Hall : forall x, In x found -> x <> "").
  { intros x Hx. subst found. apply in_flat_map in Hx as [[[root ds] fs] [_ Hx]].
    apply in_map_iff in Hx as [f [<- Hf]].
    apply fnmatch_filter_cacerts_spec in Hf as ->. apply os_path_join_cacerts. }
  destruct found as [|first rest].
  - exists None. split; [reflexivity|discriminate].
  - exists (Some first). split; [reflexivity|].
    intros ts _. simpl. specialize (Hall first (or_introl eq_refl)).
    destruct (String.eqb_spec first ""); [contradiction|reflexivity].
Qed.

Lemma _find_keytool_loop_member candidates s kt s' :
  _find_keytool_loop candidates s = (Returned (Some kt), s') -> In kt candidates.
Proof.
  revert s. induction candidates as [|c rest IH]; intros s; simpl.
  - unfold ret_. discriminate.
  - unfold try_except_CalledProcessError.
    destruct (check_output true false [c; "-help"] s) as [[o|[rc o|]] s1].
    + unfold ret_. intros [= <- <-]. now left.
    + intros Hrest. right. eapply IH, Hrest.
    + discriminate.
Qed.

Lemma keytool_candidates_truthy java_home kt :
  In kt (keytool_candidates java_home) -> truthy (Some kt) = true.
Proof.
  unfold keytool_candidates. intros [<-|[<-|[]]]; [reflexivity|].
  destruct java_home; reflexivity.
Qed.

Lemma _find_keytool_truthy java_home s kt s' :
  _find_keytool java_home s = (Returned (Some kt), s') -> truthy (Some kt) = true.
Proof.
  intros Hk. eapply keytool_candidates_truthy, _find_keytool_loop_member, Hk.
Qed.

Lemma truthy_nonempty jh : jh <> "" -> truthy (Some jh) = true.
Proof. intros Hne. simpl. destruct (String.eqb_spec jh ""); [contradiction|reflexivity]. Qed.

(** After discovery the engine is exactly [converge]. *)
Lemma trust_cert_discovered test name_ cert_file alias storepass java_home s jh ts kt s3 :
  discovers java_home s jh ts kt s3 ->
  trust_cert test name_ cert_file alias storepass java_home s
  = converge test (mkRet name_ ∅ PyFalse "") kt ts cert_file alias storepass s3.
Proof.
  intros (s1 & s2 & Hjh & Hne & Hts & Hkt).
  unfold trust_cert.
  rewrite (bind_returned _ _ _ _ _ Hjh), (truthy_nonempty _ Hne).
  erewrite bind_returned by reflexivity.
  rewrite (bind_returned _ _ _ _ _ Hts).
  destruct (_find_trust_store_returns jh (snd (putenv "JAVA_HOME" jh s1)))
    as (o & Ho & Htr).
  rewrite Hts in Ho. injection Ho as <- _. rewrite (Htr ts eq_refl).
  rewrite (bind_returned _ _ _ _ _ Hkt), (_find_keytool_truthy _ _ _ _ Hkt).
  reflexivity.
Qed.

(** ** What the engine runs *)

Lemma replay_app evs1 evs2 w : replay (evs1 ++ evs2)%list w = replay evs2 (replay evs1 w).
Proof. unfold replay. apply fold_left_app. Qed.

Lemma steps_refl s : steps s s [].
Proof. split; [now rewrite app_nil_r|reflexivity]. Qed.

Lemma steps_trans s s1 s2 evs1 evs2 :
  steps s s1 evs1 -> steps s1 s2 evs2 -> steps s s2 (evs1 ++ evs2)%list.
Proof.
  intros [Ht1 Hw1] [Ht2 Hw2]. split.
  - now rewrite Ht2, Ht1, app_assoc.
  - now rewrite Hw2, Hw1, replay_app.
Qed.

Lemma emits_weaken (P Q : Event -> Prop) {A} (m : M A) :
  (forall e, P e -> Q e) -> emits P m -> emits Q m.
Proof.
  intros HPQ Hm s r s' Hrun. destruct (Hm _ _ _ Hrun) as (evs & Hst & Hall).
  exists evs. split; [exact Hst|]. eapply Forall_impl; eauto.
Qed.

Lemma emits_ret (P : Event -> Prop) {A} (a : A) : emits P (ret_ a).
Proof. intros s r s' [= _ <-]. exists []. split; [apply steps_refl|constructor]. Qed.

Lemma emits_bind (P : Event -> Prop) {A B} (m : M A) (k : A -> M B) :
  emits P m -> (forall a, emits P (k a)) -> emits P (bind m k).
Proof.
  intros Hm Hk s r s'. unfold bind.
  destruct (m s) as [[a|e] s1] eqn:Em; destruct (Hm _ _ _ Em) as (evs1 & Hst1 & Hall1).
  - intros Hrun. destruct (Hk a _ _ _ Hrun) as (evs2 & Hst2 & Hall2).
    exists (evs1 ++ evs2)%list. split; [eapply steps_trans; eauto|].
    apply Forall_app; auto.
  - intros [= _ <-]. eauto.
Qed.

Lemma emits_try (P : Event -> Prop) {A B} (m : M A) (h : Z -> string -> M B) (k : A -> M B) :
  emits P m -> (forall rc o, emits P (h rc o)) -> (forall a, emits P (k a)) ->
  emits P (try_except_CalledProcessError m h k).
Proof.
  intros Hm Hh Hk s r s'. unfold try_except_CalledProcessError.
  destruct (m s) as [[a|[rc o|]] s1] eqn:Em; destruct (Hm _ _ _ Em) as (evs1 & Hst1 & Hall1).
  - intros Hrun. destruct (Hk a _ _ _ Hrun) as (evs2 & Hst2 & Hall2).
    exists (evs1 ++ evs2)%list. split; [eapply steps_trans; eauto|].
    apply Forall_app; auto.
  - intros Hrun. destruct (Hh rc o _ _ _ Hrun) as (evs2 & Hst2 & Hall2).
    exists (evs1 ++ evs2)%list. split; [eapply steps_trans; eauto|].
    apply Forall_app; auto.
  - intros [= _ <-]. eauto.
Qed.

Lemma emits_read (P : Event -> Prop) {A} (f : W -> A) e :
  replay1 e = (fun w => w) -> P e ->
  emits P (fun s => (Returned (f (world s)), log e s)).
Proof.
  intros Hid HP s r s' [= _ <-]. exists [e]. split; [|auto].
  split; [reflexivity|]. unfold replay. simpl. now rewrite Hid.
Qed.

Lemma emits_putenv (P : Event -> Prop) k v : P (EvPutenv k v) -> emits P (putenv k v).
Proof.
  intros HP s r s' [= _ <-]. exists [EvPutenv k v]. split; [|auto].
  split; reflexivity.
Qed.

Lemma emits_check_output (P : Event -> Prop) b text argv :
  P (EvExec argv) -> emits P (check_output b text argv).
Proof.
  intros HP s r s'. unfold check_output.
  destruct (popen (world s) argv) as [pr w'] eqn:Ep.
  assert (Hst : steps s (mkSt w' (trace s ++ [EvExec argv])) [EvExec argv]).
  { split; [reflexivity|]. unfold replay. simpl. now rewrite Ep. }
  destruct pr as [rc out|]; [destruct (rc =? 0)|]; intros [= _ <-]; eauto.
Qed.

Lemma endswith_app pre suffix : endswith suffix (pre ++ suffix) = true.
Proof.
  induction pre as [|c pre IH].
  - change ("" ++ suffix) with suffix.
    destruct suffix; cbn [endswith]; now rewrite String.eqb_refl.
  - change (String c pre ++ suffix) with (String c (pre ++ suffix)).
    cbn [endswith]. rewrite IH. apply orb_true_r.
Qed.

Lemma keytool_candidates_paths java_home kt :
  In kt (keytool_candidates java_home) -> is_keytool_path kt = true.
Proof.
  unfold keytool_candidates. intros [<-|[<-|[]]]; [reflexivity|].
  apply (endswith_app java_home "/bin/keytool").
Qed.

Lemma is_discovery_is_probe e : is_discovery e -> is_probe e.
Proof. unfold is_discovery, is_probe, probe_event. intros ->. reflexivity. Qed.

Lemma is_probe_is_engine e : is_probe e -> is_engine e.
Proof. unfold is_probe, is_engine, engine_event. intros ->. reflexivity. Qed.

Lemma is_probe_not_mutating e : is_probe e -> not_mutating e.
Proof.
  unfold is_probe, not_mutating, probe_event, discovery_event, mutating.
  destruct e as [| | | |argv]; try reflexivity.
  destruct argv as [|prog [|o rest]]; try reflexivity.
  unfold is_importcert.
  destruct (String.eqb_spec o "-importcert") as [->|Hne]; [|reflexivity].
  unfold is_bash_query, is_help, is_list, is_printcert.
  destruct rest as [|a [|b [|c rest]]]; simpl;
    rewrite ?andb_false_r; simpl; discriminate.
Qed.

Lemma is_discovery_not_mutating e : is_discovery e -> not_mutating e.
Proof. intros Hd. now apply is_probe_not_mutating, is_discovery_is_probe. Qed.

Lemma emits__find_java_home java_home : emits is_discovery (_find_java_home java_home).
Proof.
  assert (Hshell : emits is_discovery _find_java_home_shell).
  { apply emits_try; [apply emits_check_output; reflexivity| |];
      intros; apply emits_ret. }
  unfold _find_java_home. destruct java_home as [jh|]; [|exact Hshell].
  destruct (truthy (Some jh)); [|exact Hshell].
  apply emits_bind; [apply (emits_read _ (fun w => os_path_realpath w jh)); reflexivity|].
  intros rp.
  apply emits_bind; [apply (emits_read _ (fun w => os_path_isdir w rp)); reflexivity|].
  intros [|]; [apply emits_ret|exact Hshell].
Qed.

Lemma emits__find_trust_store java_home : emits is_discovery (_find_trust_store java_home).
Proof.
  unfold _find_trust_store.
  apply emits_bind; [apply (emits_read _ (fun w => os_walk w java_home)); reflexivity|].
  intros tree. destruct (flat_map _ tree); apply emits_ret.
Qed.

Lemma emits__find_keytool_loop candidates :
  (forall c, In c candidates -> is_keytool_path c = true) ->
  emits is_discovery (_find_keytool_loop candidates).
Proof.
  induction candidates as [|c rest IH]; intros Hpaths; simpl; [apply emits_ret|].
  apply emits_try.
  - apply emits_check_output. unfold is_discovery. simpl.
    now rewrite (Hpaths c (or_introl eq_refl)).
  - intros _ _. apply IH. intros c' Hc'. apply Hpaths. now right.
  - intros; apply emits_ret.
Qed.

Lemma emits__find_keytool java_home : emits is_discovery (_find_keytool java_home).
Proof. apply emits__find_keytool_loop, keytool_candidates_paths. Qed.

(** Discovery performs discovery calls only. *)
Lemma discovers_steps java_home s jh ts kt s3 :
  discovers java_home s jh ts kt s3 ->
  exists evs, steps s s3 evs /\ Forall is_discovery evs.
Proof.
  intros (s1 & s2 & Hjh & _ & Hts & Hkt).
  destruct (emits__find_java_home _ _ _ _ Hjh) as (e1 & Hs1 & Ha1).
  destruct (emits_putenv is_discovery "JAVA_HOME" jh eq_refl s1 _ _ eq_refl) as (e2 & Hs2 & Ha2).
  destruct (emits__find_trust_store _ _ _ _ Hts) as (e3 & Hs3 & Ha3).
  destruct (emits__find_keytool _ _ _ _ Hkt) as (e4 & Hs4 & Ha4).
  exists (((e1 ++ e2) ++ e3) ++ e4)%list. split.
  - exact (steps_trans _ _ _ _ _ (steps_trans _ _ _ _ _ (steps_trans _ _ _ _ _ Hs1 Hs2) Hs3) Hs4).
  - repeat (apply Forall_app; split); assumption.
Qed.

(** ** The paths of the engine *)

Lemma added_changes_lookup alias :
  added_changes alias !! "old" = Some "" /\ added_changes alias !! "new" = Some alias.
Proof.
  unfold added_changes. split.
  - rewrite lookup_insert_ne by discriminate. apply lookup_insert_eq.
  - apply lookup_insert_eq.
Qed.

Lemma added_changes_nonempty alias : added_changes alias <> ∅.
Proof. unfold added_changes. apply insert_non_empty. Qed.

(** Without an override, a shell query that runs and exits with a non-zero
    status, or that prints nothing on its standard output, ends the
    invocation at once: the neutral code True, the comment
    'Java is not installed', no changes, and the query as the only host
    call. *)
Lemma trust_cert_java_not_installed :
  forall test name_ cert_file alias storepass s rc out w',
    popen (world s) bash_query = (Exited rc out, w') ->
    rc <> 0 \/ stdout_of out = "" ->
    trust_cert test name_ cert_file alias storepass None s
    = (Returned (mkRet name_ ∅ (rc_none (result_code test)) "Java is not installed"),
       mkSt w' (trace s ++ [EvExec bash_query]))
    /\ rc_none (result_code test) = PyTrue.
Proof.
  intros test name_ cert_file alias storepass s rc out w' Hsh Hcase.
  split; [|destruct test; reflexivity].
  unfold trust_cert, _find_java_home, _find_java_home_shell.
  destruct (Z.eq_dec rc 0) as [->|Hrc].
  - destruct Hcase as [Hne|Hout]; [contradiction|].
    erewrite bind_returned.
    2:{ erewrite try_returned by (apply check_output_zero; exact Hsh). reflexivity. }
    simpl. rewrite Hout. reflexivity.
  - erewrite bind_returned.
    2:{ erewrite try_caught by (apply check_output_nonzero; eassumption). reflexivity. }
    reflexivity.
Qed.

(** C9 (defect): without an override, a login shell that cannot be started
    is a failed shell query too, but it does not end in the neutral
    'Java is not installed' dict: [check_output] raises [OSError], the
    [except CalledProcessError] of [_find_java_home] lets it through, and
    [trust_cert] returns nothing, in either mode. *)
Theorem trust_cert_shell_not_started :
  forall test name_ cert_file alias storepass s w',
    popen (world s) bash_query = (NotLaunched, w') ->
    trust_cert test name_ cert_file alias storepass None s
    = (Raised OSError, mkSt w' (trace s ++ [EvExec bash_query])).
Proof.
  intros test name_ cert_file alias storepass s w' Hsh.
  unfold trust_cert, _find_java_home, _find_java_home_shell.
  erewrite bind_raised; [reflexivity|].
  erewrite try_uncaught; [reflexivity|].
  now apply check_output_not_launched.
Qed.

(** C10: only the explicit override is checked for being a directory (on
    its symlink-resolved path); an override that fails the check falls back
    to the shell query without any error; and whatever the shell query
    prints is returned as it is, with no file-system call made on it. *)
Theorem find_java_home_checks_override_only :
  forall s,
    (forall jh,
        jh <> "" ->
        os_path_isdir (world s) (os_path_realpath (world s) jh) = true ->
        _find_java_home (Some jh) s
        = (Returned (Some jh),
           mkSt (world s)
                (trace s ++ [EvRealpath jh; EvIsdir (os_path_realpath (world s) jh)])))
    /\ (forall jh,
        os_path_isdir (world s) (os_path_realpath (world s) jh) = false ->
        jh <> "" ->
        _find_java_home (Some jh) s
        = _find_java_home_shell
            (mkSt (world s)
                  (trace s ++ [EvRealpath jh; EvIsdir (os_path_realpath (world s) jh)])))
    /\ _find_java_home (Some "") s = _find_java_home_shell s
    /\ _find_java_home None s = _find_java_home_shell s
    /\ (forall out w',
        popen (world s) bash_query = (Exited 0 out, w') ->
        _find_java_home_shell s
        = (Returned (Some (universal_newlines (stdout_of out))),
           mkSt w' (trace s ++ [EvExec bash_query]))).
Proof.
  intros s. repeat split.
  - intros jh Hne Hdir. unfold _find_java_home. rewrite (truthy_nonempty _ Hne).
    unfold bind, realpath, isdir, log. simpl. rewrite Hdir.
    unfold ret_. simpl. now rewrite <- app_assoc.
  - intros jh Hdir Hne. unfold _find_java_home. rewrite (truthy_nonempty _ Hne).
    unfold bind, realpath, isdir, log. simpl. rewrite Hdir.
    simpl. now rewrite <- app_assoc.
  - intros out w' Hsh. unfold _find_java_home_shell.
    erewrite try_returned by (apply check_output_zero; exact Hsh). reflexivity.
Qed.

(** The four outcomes of [converge], by the exit statuses of the probes. *)

Lemma converge_alias_present test ret kt ts cert_file alias storepass s out w' :
  popen (world s) (kt :: list_alias_opts ts alias storepass) = (Exited 0 out, w') ->
  converge test ret kt ts cert_file alias storepass s
  = (Returned (set_comment "CA alias exists in trust store."
                 (set_result (rc_none (result_code test)) ret)),
     mkSt w' (trace s ++ [EvExec (kt :: list_alias_opts ts alias storepass)])).
Proof.
  intros Hp. unfold converge.
  erewrite try_returned by (apply check_output_zero; exact Hp). reflexivity.
Qed.

Lemma converge_store_unreadable test ret kt ts cert_file alias storepass s
    rc1 o1 w1 rc2 o2 w2 :
  popen (world s) (kt :: list_alias_opts ts alias storepass) = (Exited rc1 o1, w1) ->
  rc1 <> 0 ->
  popen w1 (kt :: list_opts ts storepass) = (Exited rc2 o2, w2) ->
  rc2 <> 0 ->
  converge test ret kt ts cert_file alias storepass s
  = (Returned (set_comment ("Keystore " ++ ts ++ " problem:" ++ nl ++ combined_of o2)
                 (set_result (rc_failure (result_code test)) ret)),
     mkSt w2 (trace s ++ [EvExec (kt :: list_alias_opts ts alias storepass);
                          EvExec (kt :: list_opts ts storepass)])).
Proof.
  intros Hp1 Hrc1 Hp2 Hrc2. unfold converge.
  erewrite try_caught by (apply check_output_nonzero; eassumption).
  erewrite try_caught by (apply check_output_nonzero; simpl; eassumption).
  unfold ret_. simpl. now rewrite <- app_assoc.
Qed.

Lemma converge_bad_certificate test ret kt ts cert_file alias storepass s
    rc1 o1 w1 o2 w2 rc3 o3 w3 :
  popen (world s) (kt :: list_alias_opts ts alias storepass) = (Exited rc1 o1, w1) ->
  rc1 <> 0 ->
  popen w1 (kt :: list_opts ts storepass) = (Exited 0 o2, w2) ->
  popen w2 (kt :: printcert_opts cert_file) = (Exited rc3 o3, w3) ->
  rc3 <> 0 ->
  converge test ret kt ts cert_file alias storepass s
  = (Returned (set_comment ("File " ++ cert_file ++ " is not a valid certificate:"
                            ++ nl ++ stdout_of o3)
                 (set_result (rc_failure (result_code test)) ret)),
     mkSt w3 (trace s ++ [EvExec (kt :: list_alias_opts ts alias storepass);
                          EvExec (kt :: list_opts ts storepass);
                          EvExec (kt :: printcert_opts cert_file)])).
Proof.
  intros Hp1 Hrc1 Hp2 Hp3 Hrc3. unfold converge.
  erewrite try_caught by (apply check_output_nonzero; eassumption).
  erewrite try_returned by (apply check_output_zero; simpl; eassumption).
  erewrite try_caught by (apply check_output_nonzero; simpl; eassumption).
  unfold ret_. simpl. now rewrite <- !app_assoc.
Qed.

Lemma converge_apply test ret kt ts cert_file alias storepass s
    rc1 o1 w1 o2 w2 o3 w3 :
  popen (world s) (kt :: list_alias_opts ts alias storepass) = (Exited rc1 o1, w1) ->
  rc1 <> 0 ->
  popen w1 (kt :: list_opts ts storepass) = (Exited 0 o2, w2) ->
  popen w2 (kt :: printcert_opts cert_file) = (Exited 0 o3, w3) ->
  converge test ret kt ts cert_file alias storepass s
  = install test ret kt ts cert_file alias storepass
      (mkSt w3 (trace s ++ [EvExec (kt :: list_alias_opts ts alias storepass);
                            EvExec (kt :: list_opts ts storepass);
                            EvExec (kt :: printcert_opts cert_file)])).
Proof.
  intros Hp1 Hrc1 Hp2 Hp3. unfold converge.
  erewrite try_caught by (apply check_output_nonzero; eassumption).
  erewrite try_returned by (apply check_output_zero; simpl; eassumption).
  erewrite try_returned by (apply check_output_zero; simpl; eassumption).
  simpl. now rewrite <- !app_assoc.
Qed.

(** C6: when discovery succeeds and the list-by-alias probe exits with
    status 0, the outcome is the neutral code True with the comment
    'CA alias exists in trust store.' and no changes; after the discovery
    calls the alias probe is the only host call, so neither the full
    listing, nor the certificate probe, nor the import is run. *)
Theorem trust_cert_alias_present :
  forall test name_ cert_file alias storepass java_home s jh ts kt s3 out w4,
    discovers java_home s jh ts kt s3 ->
    popen (world s3) (kt :: list_alias_opts ts alias storepass) = (Exited 0 out, w4) ->
    trust_cert test name_ cert_file alias storepass java_home s
    = (Returned (mkRet name_ ∅ PyTrue "CA alias exists in trust store."),
       mkSt w4 (trace s3 ++ [EvExec (kt :: list_alias_opts ts alias storepass)]))
    /\ rc_none (result_code test) = PyTrue
    /\ exists evs, trace s3 = (trace s ++ evs)%list /\ Forall is_discovery evs.
Proof.
  intros test name_ cert_file alias storepass java_home s jh ts kt s3 out w4 Hd Hp.
  split; [|split].
  - rewrite (trust_cert_discovered _ _ _ _ _ _ _ _ _ _ _ Hd).
    rewrite (converge_alias_present _ _ _ _ _ _ _ _ _ _ Hp).
    destruct test; reflexivity.
  - destruct test; reflexivity.
  - destruct (discovers_steps _ _ _ _ _ _ Hd) as (evs & [Ht _] & Hall). eauto.
Qed.

(** C7: when discovery succeeds, the alias probe fails and the unfiltered
    listing fails too, the outcome is the failure code (False live, None in
    test mode), no changes, and a comment that ends with everything keytool
    wrote (stdout and stderr); the two listings are the only host calls
    after discovery, so the import is not run. *)
Theorem trust_cert_store_unreadable :
  forall test name_ cert_file alias storepass java_home s jh ts kt s3
         rc1 o1 w4 rc2 o2 w5,
    discovers java_home s jh ts kt s3 ->
    popen (world s3) (kt :: list_alias_opts ts alias storepass) = (Exited rc1 o1, w4) ->
    rc1 <> 0 ->
    popen w4 (kt :: list_opts ts storepass) = (Exited rc2 o2, w5) ->
    rc2 <> 0 ->
    trust_cert test name_ cert_file alias storepass java_home s
    = (Returned (mkRet name_ ∅ (rc_failure (result_code test))
                   ("Keystore " ++ ts ++ " problem:" ++ nl ++ combined_of o2)),
       mkSt w5 (trace s3 ++ [EvExec (kt :: list_alias_opts ts alias storepass);
                             EvExec (kt :: list_opts ts storepass)]))
    /\ rc_failure (result_code test) = (if test then PyNone else PyFalse)
    /\ exists evs, trace s3 = (trace s ++ evs)%list /\ Forall not_mutating evs.
Proof.
  intros test name_ cert_file alias storepass java_home s jh ts kt s3
         rc1 o1 w4 rc2 o2 w5 Hd Hp1 Hrc1 Hp2 Hrc2.
  split; [|split].
  - rewrite (trust_cert_discovered _ _ _ _ _ _ _ _ _ _ _ Hd).
    rewrite (converge_store_unreadable _ _ _ _ _ _ _ _ _ _ _ _ _ _ Hp1 Hrc1 Hp2 Hrc2).
    reflexivity.
  - destruct test; reflexivity.
  - destruct (discovers_steps _ _ _ _ _ _ Hd) as (evs & [Ht _] & Hall).
    exists evs. split; [exact Ht|].
    eapply Forall_impl; [exact Hall|]. apply is_discovery_not_mutating.
Qed.

(** What the engine returns when the certificate probe fails: the failure
    code, no changes, and a comment made of the certificate path and of
    what keytool wrote on its standard output.  Standard error is not part
    of it: this call of [check_output] does not redirect it. *)
Lemma trust_cert_bad_certificate :
  forall test name_ cert_file alias storepass java_home s jh ts kt s3
         rc1 o1 w4 o2 w5 rc3 o3 w6,
    discovers java_home s jh ts kt s3 ->
    popen (world s3) (kt :: list_alias_opts ts alias storepass) = (Exited rc1 o1, w4) ->
    rc1 <> 0 ->
    popen w4 (kt :: list_opts ts storepass) = (Exited 0 o2, w5) ->
    popen w5 (kt :: printcert_opts cert_file) = (Exited rc3 o3, w6) ->
    rc3 <> 0 ->
    trust_cert test name_ cert_file alias storepass java_home s
    = (Returned (mkRet name_ ∅ (rc_failure (result_code test))
                   ("File " ++ cert_file ++ " is not a valid certificate:" ++ nl
                    ++ stdout_of o3)),
       mkSt w6 (trace s3 ++ [EvExec (kt :: list_alias_opts ts alias storepass);
                             EvExec (kt :: list_opts ts storepass);
                             EvExec (kt :: printcert_opts cert_file)])).
Proof.
  intros test name_ cert_file alias storepass java_home s jh ts kt s3
         rc1 o1 w4 o2 w5 rc3 o3 w6 Hd Hp1 Hrc1 Hp2 Hp3 Hrc3.
  rewrite (trust_cert_discovered _ _ _ _ _ _ _ _ _ _ _ Hd).
  rewrite (converge_bad_certificate _ _ _ _ _ _ _ _ _ _ _ _ _ _ _ _
             Hp1 Hrc1 Hp2 Hp3 Hrc3).
  reflexivity.
Qed.

(** C5: live, when discovery succeeds, the alias probe fails, the listing
    and the certificate probe succeed and the import exits with status 0,
    the outcome is the success code True, the comment
    'Certificate "<alias>" was added as a trusted root.' and the changes
    {old: '', new: alias}. *)
Theorem trust_cert_live_success :
  forall name_ cert_file alias storepass java_home s jh ts kt s3
         rc1 o1 w4 o2 w5 o3 w6 o4 w7,
    discovers java_home s jh ts kt s3 ->
    popen (world s3) (kt :: list_alias_opts ts alias storepass) = (Exited rc1 o1, w4) ->
    rc1 <> 0 ->
    popen w4 (kt :: list_opts ts storepass) = (Exited 0 o2, w5) ->
    popen w5 (kt :: printcert_opts cert_file) = (Exited 0 o3, w6) ->
    popen w6 (kt :: importcert_opts cert_file ts alias storepass) = (Exited 0 o4, w7) ->
    exists r,
      trust_cert false name_ cert_file alias storepass java_home s
      = (Returned r,
         mkSt w7 (trace s3 ++ [EvExec (kt :: list_alias_opts ts alias storepass);
                               EvExec (kt :: list_opts ts storepass);
                               EvExec (kt :: printcert_opts cert_file);
                               EvExec (kt :: importcert_opts cert_file ts alias storepass)]))
      /\ name r = name_
      /\ result r = rc_success (result_code false)
      /\ result r = PyTrue
      /\ comment r
         = "Certificate " ++ dquote ++ alias ++ dquote ++ " was added as a trusted root."
      /\ changes r = <["new" := alias]> (<["old" := ""]> ∅)
      /\ changes r !! "old" = Some ""
      /\ changes r !! "new" = Some alias.
Proof.
  intros name_ cert_file alias storepass java_home s jh ts kt s3
         rc1 o1 w4 o2 w5 o3 w6 o4 w7 Hd Hp1 Hrc1 Hp2 Hp3 Hp4.
  eexists. split.
  - rewrite (trust_cert_discovered _ _ _ _ _ _ _ _ _ _ _ Hd).
    rewrite (converge_apply _ _ _ _ _ _ _ _ _ _ _ _ _ _ _ Hp1 Hrc1 Hp2 Hp3).
    unfold install. cbv beta zeta. change (negb false) with true. cbv iota.
    erewrite try_returned by (apply check_output_zero; simpl; eassumption).
    unfold ret_. simpl. rewrite <- !app_assoc. reflexivity.
  - simpl. repeat split; apply added_changes_lookup.
Qed.

Lemma emits_bind_dep (P : Event -> Prop) {A B} (m : M A) (k : A -> M B) :
  emits P m ->
  (forall a, (exists s s', m s = (Returned a, s')) -> emits P (k a)) ->
  emits P (bind m k).
Proof.
  intros Hm Hk s r s'. unfold bind.
  destruct (m s) as [[a|e] s1] eqn:Em; destruct (Hm _ _ _ Em) as (evs1 & Hst1 & Hall1).
  - intros Hrun. destruct (Hk a (ex_intro _ s (ex_intro _ s1 Em)) _ _ _ Hrun)
      as (evs2 & Hst2 & Hall2).
    exists (evs1 ++ evs2)%list. split; [eapply steps_trans; eauto|].
    apply Forall_app; auto.
  - intros [= _ <-]. eauto.
Qed.

Section Emitted.
Variable P : Event -> Prop.
Variable test : bool.
Variables cert_file alias storepass : string.
Hypothesis probes_allowed : forall e, is_probe e -> P e.
Hypothesis import_allowed :
  test = false ->
  forall kt ts, is_keytool_path kt = true ->
                P (EvExec (kt :: importcert_opts cert_file ts alias storepass)).

Lemma emits_install ret kt ts :
  is_keytool_path kt = true ->
  emits P (install test ret kt ts cert_file alias storepass).
Proof.
  intros Hkt. unfold install. destruct test eqn:Et; simpl; [apply emits_ret|].
  apply emits_try; [|intros; apply emits_ret..].
  apply emits_check_output. now apply import_allowed.
Qed.

Lemma emits_converge ret kt ts :
  is_keytool_path kt = true ->
  emits P (converge test ret kt ts cert_file alias storepass).
Proof.
  intros Hkt. unfold converge.
  assert (Hprobe : forall argv, is_list (kt :: argv) || is_printcert (kt :: argv) = true ->
                                emits P (check_output true false (kt :: argv))
                                /\ emits P (check_output false false (kt :: argv))).
  { intros argv Hc. split; apply emits_check_output, probes_allowed;
      unfold is_probe, probe_event; rewrite Hc; apply orb_true_r. }
  apply emits_try; [|intros _ _|intros; apply emits_ret].
  { apply Hprobe. simpl. now rewrite Hkt. }
  apply emits_try; [|intros; apply emits_ret|intros _].
  { apply Hprobe. simpl. now rewrite Hkt. }
  apply emits_try; [|intros; apply emits_ret|intros _; now apply emits_install].
  apply Hprobe. simpl. rewrite Hkt. apply orb_true_r.
Qed.

Lemma emits_trust_cert name_ java_home :
  emits P (trust_cert test name_ cert_file alias storepass java_home).
Proof.
  assert (Hdisc : forall A (m : M A), emits is_discovery m -> emits P m).
  { intros A m. apply emits_weaken. intros e He.
    now apply probes_allowed, is_discovery_is_probe. }
  unfold trust_cert.
  apply emits_bind; [apply Hdisc, emits__find_java_home|].
  intros [jh|]; [|apply emits_ret].
  destruct (truthy (Some jh)); [|apply emits_ret].
  apply emits_bind; [apply Hdisc, emits_putenv; reflexivity|]. intros _.
  apply emits_bind; [apply Hdisc, emits__find_trust_store|].
  intros [ts|]; [|apply emits_ret].
  destruct (truthy (Some ts)); [|apply emits_ret].
  apply emits_bind_dep; [apply Hdisc, emits__find_keytool|].
  intros [kt|] (s & s' & Hk); [|apply emits_ret].
  destruct (truthy (Some kt)); [|apply emits_ret].
  apply emits_converge.
  eapply keytool_candidates_paths, _find_keytool_loop_member, Hk.
Qed.

End Emitted.

Lemma replay_frame {X} (contents : W -> X) (P : Event -> Prop) evs w :
  (forall e w, P e -> contents (replay1 e w) = contents w) ->
  Forall P evs -> contents (replay evs w) = contents w.
Proof.
  intros Hframe Hall. revert w.
  induction Hall as [|e evs He Hall IH]; intros w; [reflexivity|].
  change (replay (e :: evs) w) with (replay evs (replay1 e w)).
  now rewrite IH, Hframe.
Qed.

(** C3: in test mode no host call of the invocation is the import, whatever
    the outcome (an exception included); hence anything that the read-only
    probes leave alone, the contents of the trust store in particular, is
    the same after the invocation.  When the apply step is reached the
    outcome is the success code (None in test mode), the comment
    'Certificate "<alias>" will be added as a trusted root.' and the
    changes {old: '', new: alias}. *)
Theorem trust_cert_test_mode :
  forall name_ cert_file alias storepass java_home s r s',
    trust_cert true name_ cert_file alias storepass java_home s = (r, s') ->
    (exists evs, steps s s' evs /\ Forall is_probe evs /\ Forall not_mutating evs)
    /\ (forall (X : Type) (contents : W -> X),
           (forall e w, probe_event e = true -> contents (replay1 e w) = contents w) ->
           contents (world s') = contents (world s))
    /\ (forall jh ts kt s3 rc1 o1 w4 o2 w5 o3 w6,
           discovers java_home s jh ts kt s3 ->
           popen (world s3) (kt :: list_alias_opts ts alias storepass)
           = (Exited rc1 o1, w4) ->
           rc1 <> 0 ->
           popen w4 (kt :: list_opts ts storepass) = (Exited 0 o2, w5) ->
           popen w5 (kt :: printcert_opts cert_file) = (Exited 0 o3, w6) ->
           r = Returned
                 (mkRet name_ (<["new" := alias]> (<["old" := ""]> ∅))
                    (rc_success (result_code true))
                    ("Certificate " ++ dquote ++ alias ++ dquote
                     ++ " will be added as a trusted root."))
           /\ rc_success (result_code true) = PyNone
           /\ s' = mkSt w6 (trace s3
                            ++ [EvExec (kt :: list_alias_opts ts alias storepass);
                                EvExec (kt :: list_opts ts storepass);
                                EvExec (kt :: printcert_opts cert_file)])).
Proof.
  intros name_ cert_file alias storepass java_home s r s' Hrun.
  assert (Hev : exists evs, steps s s' evs /\ Forall is_probe evs).
  { eapply (emits_trust_cert is_probe true); [auto|discriminate|exact Hrun]. }
  destruct Hev as (evs & Hst & Hall).
  split; [|split].
  - exists evs. repeat split; try apply Hst; [exact Hall|].
    eapply Forall_impl; [exact Hall|]. apply is_probe_not_mutating.
  - intros X contents Hframe. destruct Hst as [_ ->].
    now apply (replay_frame contents is_probe).
  - intros jh ts kt s3 rc1 o1 w4 o2 w5 o3 w6 Hd Hp1 Hrc1 Hp2 Hp3.
    rewrite (trust_cert_discovered _ _ _ _ _ _ _ _ _ _ _ Hd) in Hrun.
    rewrite (converge_apply _ _ _ _ _ _ _ _ _ _ _ _ _ _ _ Hp1 Hrc1 Hp2 Hp3) in Hrun.
    unfold install, ret_ in Hrun. simpl in Hrun.
    injection Hrun as <- <-. repeat split.
Qed.

(** ** Idempotence *)


Lemma same_discovery_sym w w' : same_discovery w w' -> same_discovery w' w.
Proof.
  intros (Hr & Hd & Hw & Hp). repeat split; intros; symmetry; auto.
Qed.




Lemma truthy_true jh : truthy (Some jh) = true -> jh <> "".
Proof. simpl. intros Ht ->. discriminate. Qed.


(** ** Exceptions that escape *)

Lemma only_OSError_ret {A} (a : A) : raises_only_OSError (ret_ a).
Proof. intros s e s'. discriminate. Qed.

Lemma only_OSError_bind {A B} (m : M A) (k : A -> M B) :
  raises_only_OSError m -> (forall a, raises_only_OSError (k a)) ->
  raises_only_OSError (bind m k).
Proof.
  intros Hm Hk s e s'. unfold bind.
  destruct (m s) as [[a|e'] s1] eqn:Em.
  - apply Hk.
  - intros [= <- <-]. eapply Hm, Em.
Qed.

(** A [check_output] under [except CalledProcessError] lets only the
    launch failure through. *)
Lemma only_OSError_try_check_output {B} b text argv
    (h : Z -> string -> M B) (k : string -> M B) :
  (forall rc o, raises_only_OSError (h rc o)) ->
  (forall o, raises_only_OSError (k o)) ->
  raises_only_OSError (try_except_CalledProcessError (check_output b text argv) h k).
Proof.
  intros Hh Hk s e s'. unfold try_except_CalledProcessError, check_output.
  destruct (popen (world s) argv) as [[rc out|] w'] eqn:Ep.
  - destruct (rc =? 0); [apply Hk|apply Hh].
  - intros [= <- _]. split; [reflexivity|]. exists (world s), argv. now rewrite Ep.
Qed.

Lemma only_OSError__find_java_home java_home :
  raises_only_OSError (_find_java_home java_home).
Proof.
  assert (Hshell : raises_only_OSError _find_java_home_shell).
  { apply only_OSError_try_check_output; intros; apply only_OSError_ret. }
  unfold _find_java_home. destruct java_home as [jh|]; [|exact Hshell].
  destruct (truthy (Some jh)); [|exact Hshell].
  intros s e s'. unfold bind, realpath, isdir.
  destruct (os_path_isdir _ _); [discriminate|apply Hshell].
Qed.

Lemma only_OSError__find_trust_store java_home :
  raises_only_OSError (_find_trust_store java_home).
Proof.
  intros s e s' Hrun. destruct (_find_trust_store_returns java_home s) as (o & Ho & _).
  rewrite Ho in Hrun. discriminate.
Qed.

Lemma only_OSError__find_keytool java_home :
  raises_only_OSError (_find_keytool java_home).
Proof.
  unfold _find_keytool. induction (keytool_candidates java_home) as [|c rest IH]; simpl.
  - apply only_OSError_ret.
  - apply only_OSError_try_check_output; intros; [exact IH|apply only_OSError_ret].
Qed.

Lemma only_OSError_converge test ret kt ts cert_file alias storepass :
  raises_only_OSError (converge test ret kt ts cert_file alias storepass).
Proof.
  unfold converge, install.
  repeat (apply only_OSError_try_check_output; intros); try apply only_OSError_ret.
  destruct (negb test); [|apply only_OSError_ret].
  apply only_OSError_try_check_output; intros; apply only_OSError_ret.
Qed.

(** No [CalledProcessError] leaves [trust_cert]: what escapes is the
    [OSError] of a program that could not be started. *)
Lemma trust_cert_raises_only_OSError test name_ cert_file alias storepass java_home :
  raises_only_OSError (trust_cert test name_ cert_file alias storepass java_home).
Proof.
  unfold trust_cert.
  apply only_OSError_bind; [apply only_OSError__find_java_home|].
  intros [jh|]; [|apply only_OSError_ret].
  destruct (truthy (Some jh)); [|apply only_OSError_ret].
  apply only_OSError_bind; [intros s e s'; discriminate|]. intros _.
  apply only_OSError_bind; [apply only_OSError__find_trust_store|].
  intros [ts|]; [|apply only_OSError_ret].
  destruct (truthy (Some ts)); [|apply only_OSError_ret].
  apply only_OSError_bind; [apply only_OSError__find_keytool|].
  intros [kt|]; [|apply only_OSError_ret].
  destruct (truthy (Some kt)); [|apply only_OSError_ret].
  apply only_OSError_converge.
Qed.

(** On a host where every program the engine asks for can be started,
    [trust_cert] returns its dict. *)
Lemma trust_cert_returns_when_launched test name_ cert_file alias storepass java_home s :
  (forall w argv, fst (popen w argv) <> NotLaunched) ->
  exists r s',
    trust_cert test name_ cert_file alias storepass java_home s = (Returned r, s').
Proof.
  intros Hlaunch.
  destruct (trust_cert test name_ cert_file alias storepass java_home s)
    as [[r|e] s'] eqn:Erun; [eauto|].
  destruct (trust_cert_raises_only_OSError _ _ _ _ _ _ _ _ _ Erun)
    as (_ & w & argv & Hnl).
  now destruct (Hlaunch w argv).
Qed.

(** ** Status codes *)

Lemma install_code test ret kt ts cert_file alias storepass s r s' :
  install test ret kt ts cert_file alias storepass s = (Returned r, s') ->
  is_code test (result r).
Proof.
  unfold install, try_except_CalledProcessError, check_output, ret_, is_code.
  destruct test; simpl.
  - intros [= <- _]. simpl. auto.
  - destruct (popen _ _) as [[rc out|] w']; [destruct (rc =? 0)|];
      intros [= <- _]; simpl; auto.
Qed.

Lemma converge_code test ret kt ts cert_file alias storepass s r s' :
  converge test ret kt ts cert_file alias storepass s = (Returned r, s') ->
  is_code test (result r).
Proof.
  unfold converge, try_except_CalledProcessError.
  destruct (check_output true false (kt :: list_alias_opts _ _ _) s) as [[o|[rc o|]] s1].
  - unfold ret_, is_code. intros [= <- _]. simpl. auto.
  - destruct (check_output true false (kt :: list_opts _ _) s1) as [[o2|[rc2 o2|]] s2].
    + destruct (check_output false false (kt :: printcert_opts _) s2) as [[o3|[rc3 o3|]] s3].
      * apply install_code.
      * unfold ret_, is_code. intros [= <- _]. simpl. auto.
      * discriminate.
    + unfold ret_, is_code. intros [= <- _]. simpl. auto.
    + discriminate.
  - discriminate.
Qed.

(** C4: whatever [trust_cert] returns carries one of the three codes of
    [result_code]; live they are True / False / True, in test mode the
    failure and success codes are both None (which is neither True nor
    False) and the neutral code is still True. *)
Theorem trust_cert_status_codes :
  forall test name_ cert_file alias storepass java_home s r s',
    trust_cert test name_ cert_file alias storepass java_home s = (Returned r, s') ->
    is_code test (result r)
    /\ result_code false = mkResultCode PyTrue PyFalse PyTrue
    /\ result_code true = mkResultCode PyTrue PyNone PyNone
    /\ PyNone <> PyFalse /\ PyNone <> PyTrue.
Proof.
  intros test name_ cert_file alias storepass java_home s r s' Hrun.
  split; [|repeat split; discriminate].
  revert Hrun. unfold trust_cert, bind.
  destruct (_find_java_home java_home s) as [[[jh|]|e] s1]; try discriminate.
  2:{ unfold ret_, is_code. intros [= <- _]. simpl. auto. }
  destruct (truthy (Some jh)).
  2:{ unfold ret_, is_code. intros [= <- _]. simpl. auto. }
  unfold putenv at 1.
  match goal with
  | |- context [_find_trust_store jh ?x] =>
      destruct (_find_trust_store jh x) as [[[ts|]|e] s2]; try discriminate
  end.
  2:{ unfold ret_, is_code. intros [= <- _]. simpl. auto. }
  destruct (truthy (Some ts)).
  2:{ unfold ret_, is_code. intros [= <- _]. simpl. auto. }
  destruct (_find_keytool jh s2) as [[[kt|]|e] s3]; try discriminate.
  2:{ unfold ret_, is_code. intros [= <- _]. simpl. auto. }
  destruct (truthy (Some kt)).
  2:{ unfold ret_, is_code. intros [= <- _]. simpl. auto. }
  apply converge_code.
Qed.

(** ** The trust store locator *)

Lemma fnmatch_filter_cacerts_none files :
  ~ In "cacerts" files -> fnmatch_filter_cacerts files = [].
Proof.
  unfold fnmatch_filter_cacerts. induction files as [|f files IH]; [reflexivity|].
  intros Hn. simpl. destruct (String.eqb_spec f "cacerts") as [->|Hne].
  - exfalso. apply Hn. now left.
  - apply IH. intros Hin. apply Hn. now right.
Qed.

Lemma fnmatch_filter_cacerts_some files :
  In "cacerts" files -> exists rest, fnmatch_filter_cacerts files = "cacerts" :: rest.
Proof.
  unfold fnmatch_filter_cacerts. induction files as [|f files IH]; [intros []|].
  intros Hin. simpl. destruct (String.eqb_spec f "cacerts") as [->|Hne]; [eauto|].
  destruct Hin as [->|Hin]; [contradiction|]. now apply IH.
Qed.

Lemma found_stores_none (walked : list (string * list string * list string)) :
  (forall t, In t walked -> ~ holds_cacerts t) ->
  flat_map (fun '(root, _, filenames) =>
              List.map (os_path_join root) (fnmatch_filter_cacerts filenames))
           walked = [].
Proof.
  induction walked as [|[[root ds] fs] walked IH]; [reflexivity|].
  intros Hn. simpl.
  rewrite (fnmatch_filter_cacerts_none fs (Hn (root, ds, fs) (or_introl eq_refl))).
  simpl. apply IH. intros t Ht. apply Hn. now right.
Qed.

Lemma _find_trust_store_first java_home s before root dirnames filenames after :
  os_walk (world s) java_home = (before ++ (root, dirnames, filenames) :: after)%list ->
  (forall t, In t before -> ~ holds_cacerts t) ->
  In "cacerts" filenames ->
  _find_trust_store java_home s
  = (Returned (Some (os_path_join root "cacerts")),
     mkSt (world s) (trace s ++ [EvWalk java_home])).
Proof.
  intros Hwalk Hbefore Hin.
  unfold _find_trust_store, bind, walk. rewrite Hwalk, flat_map_app.
  rewrite (found_stores_none before Hbefore). simpl.
  destruct (fnmatch_filter_cacerts_some filenames Hin) as (rest & ->).
  reflexivity.
Qed.

(** X1: the trust store is the file named exactly [cacerts] of the first
    directory of the walk that holds one, joined to that directory; later
    directories do not matter, and the walk is the only host call. *)
Theorem find_trust_store_first_match :
  forall java_home s before root dirnames filenames after,
    os_walk (world s) java_home = (before ++ (root, dirnames, filenames) :: after)%list ->
    (forall t, In t before -> ~ holds_cacerts t) ->
    In "cacerts" filenames ->
    _find_trust_store java_home s
    = (Returned (Some (os_path_join root "cacerts")),
       mkSt (world s) (trace s ++ [EvWalk java_home])).
Proof.
  intros java_home s before root dirnames filenames after Hwalk Hbefore Hin.
  exact (_find_trust_store_first _ _ _ _ _ _ _ Hwalk Hbefore Hin).
Qed.

(** X2: the locator answers None exactly when no directory of the walk
    holds a file named [cacerts]; names that differ in case or carry a
    suffix do not count.  It never raises. *)
Theorem find_trust_store_none_iff :
  forall java_home s,
    _find_trust_store java_home s
    = (Returned None, mkSt (world s) (trace s ++ [EvWalk java_home]))
    <-> (forall t, In t (os_walk (world s) java_home) -> ~ holds_cacerts t).
Proof.
  intros java_home s. split.
  - intros Hnone t Ht Hc.
    apply in_split in Ht as (before & after & Hwalk).
    revert before Hwalk.
    assert (Hgen : forall walked before, os_walk (world s) java_home
                                         = (before ++ walked)%list ->
                   (forall t, In t before -> ~ holds_cacerts t) ->
                   forall t before' after, walked = (before' ++ t :: after)%list ->
                   holds_cacerts t -> False).
    { induction walked as [|[[root ds] fs] walked IH];
        intros before Hw Hb t' before' after' Hsplit Hc'.
      - destruct before'; discriminate.
      - destruct (in_dec string_dec "cacerts" fs) as [Hfs|Hfs].
        + rewrite (_find_trust_store_first _ _ _ _ _ _ _ Hw Hb Hfs) in Hnone.
          discriminate.
        + destruct before' as [|b before'].
          * injection Hsplit as <- _. contradiction.
          * injection Hsplit as _ Hsplit.
            apply (IH (before ++ [(root, ds, fs)])%list) with t' before' after'; auto.
            -- now rewrite <- app_assoc.
            -- intros x Hx. apply in_app_or in Hx as [Hx|[<-|[]]]; auto. }
    intros before Hwalk.
    exact (Hgen _ [] eq_refl (fun _ F => match F with end) t before after Hwalk Hc).
  - intros Hnone. unfold _find_trust_store, bind, walk.
    now rewrite (found_stores_none _ Hnone).
Qed.

(** ** The keytool locator *)

Lemma _find_keytool_system java_home s out w' :
  popen (world s) ["/usr/bin/keytool"; "-help"] = (Exited 0 out, w') ->
  _find_keytool java_home s
  = (Returned (Some "/usr/bin/keytool"),
     mkSt w' (trace s ++ [EvExec ["/usr/bin/keytool"; "-help"]])).
Proof.
  intros Hp. unfold _find_keytool, keytool_candidates. simpl.
  erewrite try_returned by (apply check_output_zero; exact Hp). reflexivity.
Qed.

Lemma _find_keytool_second java_home s rc1 o1 w1 rc2 o2 w2 :
  popen (world s) ["/usr/bin/keytool"; "-help"] = (Exited rc1 o1, w1) ->
  rc1 <> 0 ->
  popen w1 [java_home ++ "/bin/keytool"; "-help"] = (Exited rc2 o2, w2) ->
  _find_keytool java_home s
  = (Returned (if rc2 =? 0 then Some (java_home ++ "/bin/keytool") else None),
     mkSt w2 (trace s ++ [EvExec ["/usr/bin/keytool"; "-help"];
                          EvExec [java_home ++ "/bin/keytool"; "-help"]])).
Proof.
  intros Hp1 Hrc1 Hp2. unfold _find_keytool, keytool_candidates. simpl.
  erewrite try_caught by (apply check_output_nonzero; eassumption).
  destruct (Z.eqb_spec rc2 0) as [->|Hrc2].
  - erewrite try_returned by (apply check_output_zero; exact Hp2).
    unfold ret_. simpl. now rewrite <- app_assoc.
  - erewrite try_caught by (apply check_output_nonzero; simpl; eassumption).
    unfold ret_. simpl. now rewrite <- app_assoc.
Qed.

(** X3: when [/usr/bin/keytool -help] exits with status 0 the system
    keytool is chosen, whatever the Java home, and the keytool of the Java
    home is not even probed: the one [-help] call is the only host call. *)
Theorem find_keytool_prefers_system :
  forall java_home s out w',
    popen (world s) ["/usr/bin/keytool"; "-help"] = (Exited 0 out, w') ->
    _find_keytool java_home s
    = (Returned (Some "/usr/bin/keytool"),
       mkSt w' (trace s ++ [EvExec ["/usr/bin/keytool"; "-help"]])).
Proof.
  intros java_home s out w' Hp. exact (_find_keytool_system _ _ _ _ Hp).
Qed.

(** X4: when [/usr/bin/keytool -help] exits with a non-zero status,
    [<java_home>/bin/keytool -help] is tried next, on the host as the first
    probe left it: it is chosen when it exits with status 0, and the answer
    is None otherwise.  There is no third candidate and no retry. *)
Theorem find_keytool_falls_back :
  forall java_home s rc1 o1 w1 rc2 o2 w2,
    popen (world s) ["/usr/bin/keytool"; "-help"] = (Exited rc1 o1, w1) ->
    rc1 <> 0 ->
    popen w1 [java_home ++ "/bin/keytool"; "-help"] = (Exited rc2 o2, w2) ->
    _find_keytool java_home s
    = (Returned (if rc2 =? 0 then Some (java_home ++ "/bin/keytool") else None),
       mkSt w2 (trace s ++ [EvExec ["/usr/bin/keytool"; "-help"];
                            EvExec [java_home ++ "/bin/keytool"; "-help"]])).
Proof.
  intros java_home s rc1 o1 w1 rc2 o2 w2 Hp1 Hrc1 Hp2.
  exact (_find_keytool_second _ _ _ _ _ _ _ _ Hp1 Hrc1 Hp2).
Qed.

(** ** Discovery failures and the failed import *)

(** X5: when a Java home is found but its tree holds no file named
    [cacerts], the outcome is the failure code (False live, None in test
    mode) with the comment 'Could not find Java trust store.' and no
    changes; [JAVA_HOME] has been exported and the tree walked, and no
    keytool is run. *)
Theorem trust_cert_no_trust_store :
  forall test name_ cert_file alias storepass java_home s jh s1,
    _find_java_home java_home s = (Returned (Some jh), s1) ->
    jh <> "" ->
    (forall t, In t (os_walk (os_putenv "JAVA_HOME" jh (world s1)) jh) ->
               ~ holds_cacerts t) ->
    trust_cert test name_ cert_file alias storepass java_home s
    = (Returned (mkRet name_ ∅ (if test then PyNone else PyFalse)
                   "Could not find Java trust store."),
       mkSt (os_putenv "JAVA_HOME" jh (world s1))
            (trace s1 ++ [EvPutenv "JAVA_HOME" jh; EvWalk jh])).
Proof.
  intros test name_ cert_file alias storepass java_home s jh s1 Hjh Hne Hnone.
  unfold trust_cert.
  rewrite (bind_returned _ _ _ _ _ Hjh), (truthy_nonempty _ Hne).
  erewrite bind_returned by reflexivity.
  erewrite bind_returned.
  2:{ unfold _find_trust_store, bind, walk. cbn [world trace].
      rewrite (found_stores_none _ Hnone). reflexivity. }
  unfold ret_, log. simpl. rewrite <- app_assoc. destruct test; reflexivity.
Qed.

(** X6: when a Java home and a trust store are found but no keytool
    candidate answers [-help] with status 0, the outcome is the failure
    code with the comment 'Could not find keytool binary.' and no changes;
    the store is not touched by any keytool command. *)
Theorem trust_cert_no_keytool :
  forall test name_ cert_file alias storepass java_home s jh s1 ts s2 s3,
    _find_java_home java_home s = (Returned (Some jh), s1) ->
    jh <> "" ->
    _find_trust_store jh (snd (putenv "JAVA_HOME" jh s1)) = (Returned (Some ts), s2) ->
    _find_keytool jh s2 = (Returned None, s3) ->
    trust_cert test name_ cert_file alias storepass java_home s
    = (Returned (mkRet name_ ∅ (if test then PyNone else PyFalse)
                   "Could not find keytool binary."),
       s3)
    /\ exists evs, steps s s3 evs /\ Forall is_discovery evs.
Proof.
  intros test name_ cert_file alias storepass java_home s jh s1 ts s2 s3
         Hjh Hne Hts Hkt.
  split.
  - unfold trust_cert.
    rewrite (bind_returned _ _ _ _ _ Hjh), (truthy_nonempty _ Hne).
    erewrite bind_returned by reflexivity.
    rewrite (bind_returned _ _ _ _ _ Hts).
    destruct (_find_trust_store_returns jh (snd (putenv "JAVA_HOME" jh s1)))
      as (o & Ho & Htr).
    rewrite Hts in Ho. injection Ho as <- _. rewrite (Htr ts eq_refl).
    rewrite (bind_returned _ _ _ _ _ Hkt).
    unfold ret_. destruct test; reflexivity.
  - destruct (emits__find_java_home _ _ _ _ Hjh) as (e1 & Hs1 & Ha1).
    destruct (emits_putenv is_discovery "JAVA_HOME" jh eq_refl s1 _ _ eq_refl)
      as (e2 & Hs2 & Ha2).
    destruct (emits__find_trust_store _ _ _ _ Hts) as (e3 & Hs3 & Ha3).
    destruct (emits__find_keytool _ _ _ _ Hkt) as (e4 & Hs4 & Ha4).
    exists (((e1 ++ e2) ++ e3) ++ e4)%list. split.
    + exact (steps_trans _ _ _ _ _
               (steps_trans _ _ _ _ _ (steps_trans _ _ _ _ _ Hs1 Hs2) Hs3) Hs4).
    + repeat (apply Forall_app; split); assumption.
Qed.

(** X7: live, when every probe passes but the import exits with a
    non-zero status, the outcome is the failure code False, the comment is
    exactly what keytool wrote (stdout and stderr, nothing added), and no
    changes are reported. *)
Theorem trust_cert_import_failure :
  forall name_ cert_file alias storepass java_home s jh ts kt s3
         rc1 o1 w4 o2 w5 o3 w6 rc4 o4 w7,
    discovers java_home s jh ts kt s3 ->
    popen (world s3) (kt :: list_alias_opts ts alias storepass) = (Exited rc1 o1, w4) ->
    rc1 <> 0 ->
    popen w4 (kt :: list_opts ts storepass) = (Exited 0 o2, w5) ->
    popen w5 (kt :: printcert_opts cert_file) = (Exited 0 o3, w6) ->
    popen w6 (kt :: importcert_opts cert_file ts alias storepass) = (Exited rc4 o4, w7) ->
    rc4 <> 0 ->
    trust_cert false name_ cert_file alias storepass java_home s
    = (Returned (mkRet name_ ∅ PyFalse (combined_of o4)),
       mkSt w7 (trace s3 ++ [EvExec (kt :: list_alias_opts ts alias storepass);
                             EvExec (kt :: list_opts ts storepass);
                             EvExec (kt :: printcert_opts cert_file);
                             EvExec (kt :: importcert_opts cert_file ts alias storepass)])).
Proof.
  intros name_ cert_file alias storepass java_home s jh ts kt s3
         rc1 o1 w4 o2 w5 o3 w6 rc4 o4 w7 Hd Hp1 Hrc1 Hp2 Hp3 Hp4 Hrc4.
  rewrite (trust_cert_discovered _ _ _ _ _ _ _ _ _ _ _ Hd).
  rewrite (converge_apply _ _ _ _ _ _ _ _ _ _ _ _ _ _ _ Hp1 Hrc1 Hp2 Hp3).
  unfold install. cbv beta zeta. change (negb false) with true. cbv iota.
  erewrite try_caught by (apply check_output_nonzero; simpl; eassumption).
  unfold ret_. simpl. rewrite <- !app_assoc. reflexivity.
Qed.

(** ** Every run of the engine *)

(** A run either stops during discovery, with a dict that reports no
    change or with an exception, or it gets through discovery and is a run
    of [converge]. *)
Lemma trust_cert_run_inv test name_ cert_file alias storepass java_home s r s' :
  trust_cert test name_ cert_file alias storepass java_home s = (r, s') ->
  (exists evs,
      steps s s' evs /\ Forall is_discovery evs
      /\ ((exists e, r = Raised e) \/ exists v c, r = Returned (mkRet name_ ∅ v c)))
  \/ (exists jh ts kt s3,
         discovers java_home s jh ts kt s3
         /\ is_keytool_path kt = true
         /\ converge test (mkRet name_ ∅ PyFalse "") kt ts cert_file alias storepass s3
            = (r, s')).
Proof.
  unfold trust_cert, bind, ret_.
  destruct (_find_java_home java_home s) as [[o|e] s1] eqn:Ejh;
    destruct (emits__find_java_home _ _ _ _ Ejh) as (e1 & Hs1 & Ha1).
  2:{ intros [= <- <-]. left. exists e1. eauto 6. }
  destruct o as [jh|].
  2:{ intros [= <- <-]. left. exists e1. simpl. eauto 8. }
  destruct (truthy (Some jh)) eqn:Etj.
  2:{ intros [= <- <-]. left. exists e1. simpl. eauto 8. }
  change (putenv "JAVA_HOME" jh s1) with (Returned tt, snd (putenv "JAVA_HOME" jh s1)).
  cbv iota beta.
  destruct (emits_putenv is_discovery "JAVA_HOME" jh eq_refl s1 _ _ eq_refl)
    as (e2 & Hs2 & Ha2).
  pose proof (steps_trans _ _ _ _ _ Hs1 Hs2) as Hs12.
  assert (Ha12 : Forall is_discovery (e1 ++ e2)%list) by (apply Forall_app; auto).
  destruct (_find_trust_store jh (snd (putenv "JAVA_HOME" jh s1)))
    as [[o|e] s2] eqn:Ets;
    destruct (emits__find_trust_store _ _ _ _ Ets) as (e3 & Hs3 & Ha3);
    pose proof (steps_trans _ _ _ _ _ Hs12 Hs3) as Hs123;
    assert (Ha123 : Forall is_discovery ((e1 ++ e2) ++ e3)%list)
      by (apply Forall_app; auto).
  2:{ intros [= <- <-]. left. eauto 8. }
  destruct o as [ts|].
  2:{ intros [= <- <-]. left. eexists. simpl. eauto 8. }
  destruct (truthy (Some ts)).
  2:{ intros [= <- <-]. left. eexists. simpl. eauto 8. }
  destruct (_find_keytool jh s2) as [[o|e] s3] eqn:Ekt;
    destruct (emits__find_keytool _ _ _ _ Ekt) as (e4 & Hs4 & Ha4);
    pose proof (steps_trans _ _ _ _ _ Hs123 Hs4) as Hs1234;
    assert (Ha1234 : Forall is_discovery (((e1 ++ e2) ++ e3) ++ e4)%list)
      by (apply Forall_app; auto).
  2:{ intros [= <- <-]. left. eauto 8. }
  destruct o as [kt|].
  2:{ intros [= <- <-]. left. eexists. simpl. eauto 8. }
  destruct (truthy (Some kt)).
  2:{ intros [= <- <-]. left. eexists. simpl. eauto 8. }
  intros Hconv. right. exists jh, ts, kt, s3. split; [|split; [|exact Hconv]].
  - exists s1, s2. repeat split; auto. now apply truthy_true.
  - eapply keytool_candidates_paths, _find_keytool_loop_member, Ekt.
Qed.

(** The host calls of [converge]: the probes in order, as far as they
    went, and the import after all three, live only. *)
Lemma converge_trace test ret kt ts cert_file alias storepass s r s' :
  converge test ret kt ts cert_file alias storepass s = (r, s') ->
  exists evs,
    steps s s' evs
    /\ (evs = [EvExec (kt :: list_alias_opts ts alias storepass)]
        \/ evs = [EvExec (kt :: list_alias_opts ts alias storepass);
                  EvExec (kt :: list_opts ts storepass)]
        \/ evs = [EvExec (kt :: list_alias_opts ts alias storepass);
                  EvExec (kt :: list_opts ts storepass);
                  EvExec (kt :: printcert_opts cert_file)]
        \/ (test = false
            /\ evs = [EvExec (kt :: list_alias_opts ts alias storepass);
                      EvExec (kt :: list_opts ts storepass);
                      EvExec (kt :: printcert_opts cert_file);
                      EvExec (kt :: importcert_opts cert_file ts alias storepass)])).
Proof.
  unfold converge, install, try_except_CalledProcessError, check_output, ret_.
  cbv zeta.
  destruct (popen (world s) _) as [pr1 w4] eqn:E1.
  assert (H1 : steps s (mkSt w4 (trace s ++ [EvExec (kt :: list_alias_opts ts alias storepass)]))
                     [EvExec (kt :: list_alias_opts ts alias storepass)]).
  { split; [reflexivity|]. unfold replay. simpl. now rewrite E1. }
  destruct pr1 as [rc1 o1|]; [destruct (rc1 =? 0)|];
    try (intros [= <- <-]; eexists; split; [exact H1|auto]).
  cbn [world trace].
  destruct (popen w4 _) as [pr2 w5] eqn:E2.
  assert (H2 : steps s (mkSt w5 ((trace s ++ [EvExec (kt :: list_alias_opts ts alias storepass)])
                                 ++ [EvExec (kt :: list_opts ts storepass)]))
                     [EvExec (kt :: list_alias_opts ts alias storepass);
                      EvExec (kt :: list_opts ts storepass)]).
  { split; [simpl; now rewrite <- app_assoc|].
    unfold replay. simpl. rewrite E1. simpl. now rewrite E2. }
  destruct pr2 as [rc2 o2|]; [destruct (rc2 =? 0)|];
    try (intros [= <- <-]; eexists; split; [exact H2|auto]).
  cbn [world trace].
  destruct (popen w5 _) as [pr3 w6] eqn:E3.
  assert (H3 : steps s (mkSt w6 (((trace s ++ [EvExec (kt :: list_alias_opts ts alias storepass)])
                                  ++ [EvExec (kt :: list_opts ts storepass)])
                                 ++ [EvExec (kt :: printcert_opts cert_file)]))
                     [EvExec (kt :: list_alias_opts ts alias storepass);
                      EvExec (kt :: list_opts ts storepass);
                      EvExec (kt :: printcert_opts cert_file)]).
  { split; [simpl; now rewrite <- !app_assoc|].
    unfold replay. simpl. rewrite E1. simpl. rewrite E2. simpl. now rewrite E3. }
  destruct pr3 as [rc3 o3|]; [destruct (rc3 =? 0)|];
    try (intros [= <- <-]; eexists; split; [exact H3|auto]).
  destruct test; cbn [negb]; cbv beta iota;
    [intros [= <- <-]; eexists; split; [exact H3|auto]|].
  cbn [world trace].
  destruct (popen w6 _) as [pr4 w7] eqn:E4.
  assert (H4 : steps s (mkSt w7 ((((trace s ++ [EvExec (kt :: list_alias_opts ts alias storepass)])
                                   ++ [EvExec (kt :: list_opts ts storepass)])
                                  ++ [EvExec (kt :: printcert_opts cert_file)])
                                 ++ [EvExec (kt :: importcert_opts cert_file ts alias
                                                    storepass)]))
                     [EvExec (kt :: list_alias_opts ts alias storepass);
                      EvExec (kt :: list_opts ts storepass);
                      EvExec (kt :: printcert_opts cert_file);
                      EvExec (kt :: importcert_opts cert_file ts alias storepass)]).
  { split; [simpl; now rewrite <- !app_assoc|].
    unfold replay. simpl. rewrite E1. simpl. rewrite E2. simpl. rewrite E3. simpl.
    now rewrite E4. }
  destruct pr4 as [rc4 o4|]; [destruct (rc4 =? 0)|];
    intros [= <- <-]; eexists; (split; [exact H4|auto 6]).
Qed.

(** The dict of [converge]: the name it was given, and either the changes
    it was given or those of the apply step. *)
Lemma converge_dict test ret kt ts cert_file alias storepass s d s' :
  converge test ret kt ts cert_file alias storepass s = (Returned d, s') ->
  name d = name ret
  /\ (changes d = changes ret
      \/ (changes d = added_changes alias
          /\ result d = rc_success (result_code test)
          /\ comment d = if test then msg_will_be_added alias else msg_was_added alias)).
Proof.
  unfold converge, install, try_except_CalledProcessError, check_output, ret_.
  cbv zeta.
  destruct (popen (world s) _) as [[rc1 o1|] w4]; [destruct (rc1 =? 0)|];
    try discriminate; try (intros [= <- _]; simpl; auto).
  cbn [world trace].
  destruct (popen w4 _) as [[rc2 o2|] w5]; [destruct (rc2 =? 0)|];
    try discriminate; try (intros [= <- _]; simpl; auto).
  cbn [world trace].
  destruct (popen w5 _) as [[rc3 o3|] w6]; [destruct (rc3 =? 0)|];
    try discriminate; try (intros [= <- _]; simpl; auto).
  destruct test; cbn [negb]; cbv beta iota; [intros [= <- _]; simpl; auto|].
  cbn [world trace].
  destruct (popen w6 _) as [[rc4 o4|] w7]; [destruct (rc4 =? 0)|];
    try discriminate; intros [= <- _]; simpl; auto.
Qed.

(** X8: every dict [trust_cert] returns carries the name it was called
    with; its changes are empty unless the apply step succeeded, in which
    case they are {old: '', new: alias}, the status is the success code
    and the comment is the 'will be added' one in test mode and the
    'was added' one live. *)
Theorem trust_cert_dict_invariant :
  forall test name_ cert_file alias storepass java_home s d s',
    trust_cert test name_ cert_file alias storepass java_home s = (Returned d, s') ->
    name d = name_
    /\ (changes d = ∅
        \/ (changes d = <["new" := alias]> (<["old" := ""]> ∅)
            /\ result d = rc_success (result_code test)
            /\ comment d
               = "Certificate " ++ dquote ++ alias ++ dquote
                 ++ (if test then " will be added as a trusted root."
                     else " was added as a trusted root."))).
Proof.
  intros test name_ cert_file alias storepass java_home s d s' Hrun.
  destruct (trust_cert_run_inv _ _ _ _ _ _ _ _ _ Hrun)
    as [(evs & _ & _ & [(e & He)|(v & c & Hd)])
       |(jh & ts & kt & s3 & _ & _ & Hconv)].
  - discriminate.
  - injection Hd as ->. simpl. auto.
  - destruct (converge_dict _ _ _ _ _ _ _ _ _ _ Hconv) as (Hn & [Hc|(Hc & Hr & Hm)]).
    + simpl in Hn, Hc. auto.
    + simpl in Hn. split; [exact Hn|]. right. split; [exact Hc|]. split; [exact Hr|].
      rewrite Hm. destruct test; reflexivity.
Qed.

(** X10: an invocation runs the import at most once, as its last host
    call, live only, and only right after the list-by-alias probe, the
    full listing and the certificate probe, in that order, with the same
    keytool and store; every other host call is a read-only probe. *)
Theorem trust_cert_import_is_last :
  forall test name_ cert_file alias storepass java_home s r s',
    trust_cert test name_ cert_file alias storepass java_home s = (r, s') ->
    exists evs,
      steps s s' evs
      /\ (Forall is_probe evs
          \/ (test = false
              /\ exists evsd kt ts,
                  evs = (evsd
                         ++ [EvExec (kt :: list_alias_opts ts alias storepass);
                             EvExec (kt :: list_opts ts storepass);
                             EvExec (kt :: printcert_opts cert_file);
                             EvExec (kt :: importcert_opts cert_file ts alias storepass)])%list
                  /\ Forall is_discovery evsd)).
Proof.
  intros test name_ cert_file alias storepass java_home s r s' Hrun.
  destruct (trust_cert_run_inv _ _ _ _ _ _ _ _ _ Hrun)
    as [(evs & Hst & Hall & _)|(jh & ts & kt & s3 & Hd & Hkt & Hconv)].
  - exists evs. split; [exact Hst|]. left.
    eapply Forall_impl; [exact Hall|]. apply is_discovery_is_probe.
  - destruct (discovers_steps _ _ _ _ _ _ Hd) as (evsd & Hstd & Halld).
    destruct (converge_trace _ _ _ _ _ _ _ _ _ _ Hconv) as (evsc & Hstc & Hshape).
    exists (evsd ++ evsc)%list. split; [eapply steps_trans; eauto|].
    assert (Hdp : Forall is_probe evsd).
    { eapply Forall_impl; [exact Halld|]. apply is_discovery_is_probe. }
    assert (Hl : forall argv, is_probe (EvExec (kt :: "-keystore" :: ts :: "-list" :: argv))).
    { intros argv. unfold is_probe, probe_event. simpl. rewrite Hkt. simpl.
      now rewrite ?orb_true_r. }
    assert (Hp : is_probe (EvExec (kt :: printcert_opts cert_file))).
    { unfold is_probe, probe_event. simpl. rewrite Hkt. simpl.
      now rewrite ?orb_true_r. }
    destruct Hshape as [->|[->|[->|[-> ->]]]].
    + left. apply Forall_app. split; [exact Hdp|]. repeat constructor. apply Hl.
    + left. apply Forall_app. split; [exact Hdp|]. repeat constructor; apply Hl.
    + left. apply Forall_app. split; [exact Hdp|].
      repeat constructor; [apply Hl|apply Hl|exact Hp].
    + right. split; [reflexivity|]. exists evsd, kt, ts. auto.
Qed.

(** ** Test mode against live mode *)

Lemma converge_test_predicts_live ret kt ts cert_file alias storepass s r s' :
  changes ret = ∅ ->
  converge true ret kt ts cert_file alias storepass s = (r, s') ->
  match r with
  | Raised e => converge false ret kt ts cert_file alias storepass s = (Raised e, s')
  | Returned d =>
      (changes d = ∅ ->
       converge false ret kt ts cert_file alias storepass s
       = (Returned (set_result (match result d with PyNone => PyFalse | v => v end) d),
          s'))
      /\ (changes d <> ∅ ->
          converge false ret kt ts cert_file alias storepass s
          = install false ret kt ts cert_file alias storepass s')
  end.
Proof.
  intros Hret.
  unfold converge, try_except_CalledProcessError, check_output, ret_. cbv zeta.
  destruct (popen (world s) _) as [[rc1 o1|] w4]; [destruct (rc1 =? 0)|].
  - intros [= <- <-]. simpl. split; [reflexivity|]. intros Hne. now rewrite Hret in Hne.
  - cbn [world trace].
    destruct (popen w4 _) as [[rc2 o2|] w5]; [destruct (rc2 =? 0)|].
    + cbn [world trace].
      destruct (popen w5 _) as [[rc3 o3|] w6]; [destruct (rc3 =? 0)|].
      * unfold install at 1. simpl. unfold ret_. intros [= <- <-]. simpl. split.
        -- intros Hadd. now destruct (added_changes_nonempty alias).
        -- reflexivity.
      * intros [= <- <-]. simpl. split; [reflexivity|].
        intros Hne. now rewrite Hret in Hne.
      * intros [= <- <-]. reflexivity.
    + intros [= <- <-]. simpl. split; [reflexivity|].
      intros Hne. now rewrite Hret in Hne.
    + intros [= <- <-]. reflexivity.
  - intros [= <- <-]. reflexivity.
Qed.

(** X9: a test-mode run predicts the live run from the same state.  If it
    raises, the live run raises the same exception; if it returns a dict
    without changes, the live run returns the same dict with the same host
    calls, the status None read as False; if it announces the change, the
    live run makes the same host calls and then goes on with the import. *)
Theorem trust_cert_test_predicts_live :
  forall name_ cert_file alias storepass java_home s r s',
    trust_cert true name_ cert_file alias storepass java_home s = (r, s') ->
    match r with
    | Raised e =>
        trust_cert false name_ cert_file alias storepass java_home s = (Raised e, s')
    | Returned d =>
        (changes d = ∅ ->
         trust_cert false name_ cert_file alias storepass java_home s
         = (Returned (set_result (match result d with PyNone => PyFalse | v => v end) d),
            s'))
        /\ (changes d <> ∅ ->
            exists kt ts,
              is_keytool_path kt = true
              /\ trust_cert false name_ cert_file alias storepass java_home s
                 = install false (mkRet name_ ∅ PyFalse "") kt ts
                     cert_file alias storepass s')
    end.
Proof.
  intros name_ cert_file alias storepass java_home s r s'.
  unfold trust_cert, bind, ret_.
  destruct (_find_java_home java_home s) as [[[jh|]|e] s1].
  2:{ intros [= <- <-]. simpl. split; [reflexivity|]. intros Hne. now destruct Hne. }
  2:{ intros [= <- <-]. reflexivity. }
  destruct (truthy (Some jh)).
  2:{ intros [= <- <-]. simpl. split; [reflexivity|]. intros Hne. now destruct Hne. }
  change (putenv "JAVA_HOME" jh s1) with (Returned tt, snd (putenv "JAVA_HOME" jh s1)).
  cbv iota beta.
  destruct (_find_trust_store jh (snd (putenv "JAVA_HOME" jh s1))) as [[[ts|]|e] s2].
  2:{ intros [= <- <-]. simpl. split; [reflexivity|]. intros Hne. now destruct Hne. }
  2:{ intros [= <- <-]. reflexivity. }
  destruct (truthy (Some ts)).
  2:{ intros [= <- <-]. simpl. split; [reflexivity|]. intros Hne. now destruct Hne. }
  destruct (_find_keytool jh s2) as [[[kt|]|e] s3] eqn:Ekt.
  2:{ intros [= <- <-]. simpl. split; [reflexivity|]. intros Hne. now destruct Hne. }
  2:{ intros [= <- <-]. reflexivity. }
  destruct (truthy (Some kt)).
  2:{ intros [= <- <-]. simpl. split; [reflexivity|]. intros Hne. now destruct Hne. }
  intros Hconv.
  pose proof (converge_test_predicts_live (mkRet name_ ∅ PyFalse "") kt ts
                cert_file alias storepass s3 r s' eq_refl Hconv) as Hlive.
  destruct r as [d|e]; [|exact Hlive].
  destruct Hlive as [Hsame Hgo]. split; [exact Hsame|].
  intros Hne. exists kt, ts. split; [|exact (Hgo Hne)].
  eapply keytool_candidates_paths, _find_keytool_loop_member, Ekt.
Qed.

(** ** The order of the host calls *)

Lemma emits_home__find_java_home java_home :
  emits is_home_event (_find_java_home java_home).
Proof.
  assert (Hshell : emits is_home_event _find_java_home_shell).
  { apply emits_try; [apply emits_check_output; reflexivity| |];
      intros; apply emits_ret. }
  unfold _find_java_home. destruct java_home as [jh|]; [|exact Hshell].
  destruct (truthy (Some jh)); [|exact Hshell].
  apply emits_bind; [apply (emits_read _ (fun w => os_path_realpath w jh)); reflexivity|].
  intros rp.
  apply emits_bind; [apply (emits_read _ (fun w => os_path_isdir w rp)); reflexivity|].
  intros [|]; [apply emits_ret|exact Hshell].
Qed.

Lemma emits_keytool__find_keytool java_home :
  emits is_keytool_call (_find_keytool java_home).
Proof.
  unfold _find_keytool.
  assert (Hpaths := keytool_candidates_paths java_home).
  induction (keytool_candidates java_home) as [|c rest IH]; simpl; [apply emits_ret|].
  apply emits_try.
  - apply emits_check_output. apply (Hpaths c (or_introl eq_refl)).
  - intros _ _. apply IH. intros c' Hc'. apply Hpaths. now right.
  - intros; apply emits_ret.
Qed.

Lemma emits_keytool_converge test ret kt ts cert_file alias storepass :
  is_keytool_path kt = true ->
  emits is_keytool_call (converge test ret kt ts cert_file alias storepass).
Proof.
  intros Hkt. unfold converge, install.
  repeat (apply emits_try; [apply emits_check_output; exact Hkt| |]; intros);
    try apply emits_ret.
  destruct (negb test); [|apply emits_ret].
  apply emits_try; [apply emits_check_output; exact Hkt| |]; intros; apply emits_ret.
Qed.

(** X12: the host calls of an invocation come in a fixed order: first
    those of the home resolver (the checks of the override, the shell
    query); then, if a non-empty home was found, the export of
    [JAVA_HOME] with that very value and the walk of that very directory;
    and after these nothing but runs of a keytool candidate.  No keytool
    is run before [JAVA_HOME] is exported. *)
Theorem trust_cert_exports_java_home_first :
  forall test name_ cert_file alias storepass java_home s r s',
    trust_cert test name_ cert_file alias storepass java_home s = (r, s') ->
    exists evs1 evs2,
      steps s s' (evs1 ++ evs2)
      /\ Forall is_home_event evs1
      /\ (evs2 = []
          \/ exists jh rest,
              jh <> ""
              /\ evs2 = EvPutenv "JAVA_HOME" jh :: EvWalk jh :: rest
              /\ Forall is_keytool_call rest).
Proof.
  intros test name_ cert_file alias storepass java_home s r s'.
  unfold trust_cert, bind, ret_.
  destruct (_find_java_home java_home s) as [[o|e] s1] eqn:Ejh;
    destruct (emits_home__find_java_home _ _ _ _ Ejh) as (e1 & Hs1 & Ha1).
  2:{ intros [= <- <-]. exists e1, []. rewrite app_nil_r. auto. }
  destruct o as [jh|].
  2:{ intros [= <- <-]. exists e1, []. rewrite app_nil_r. auto. }
  destruct (truthy (Some jh)) eqn:Etj.
  2:{ intros [= <- <-]. exists e1, []. rewrite app_nil_r. auto. }
  apply truthy_true in Etj.
  change (putenv "JAVA_HOME" jh s1) with (Returned tt, snd (putenv "JAVA_HOME" jh s1)).
  cbv iota beta.
  destruct (_find_trust_store_returns jh (snd (putenv "JAVA_HOME" jh s1)))
    as (o & Ho & _).
  rewrite Ho.
  set (s2 := log (EvWalk jh) (snd (putenv "JAVA_HOME" jh s1))).
  assert (Hs2 : steps s1 s2 [EvPutenv "JAVA_HOME" jh; EvWalk jh]).
  { split; [simpl; now rewrite <- app_assoc|reflexivity]. }
  assert (Hstop : forall rest, steps s2 s' rest -> Forall is_keytool_call rest ->
                  exists evs1 evs2,
                    steps s s' (evs1 ++ evs2)
                    /\ Forall is_home_event evs1
                    /\ (evs2 = []
                        \/ exists jh rest,
                            jh <> ""
                            /\ evs2 = EvPutenv "JAVA_HOME" jh :: EvWalk jh :: rest
                            /\ Forall is_keytool_call rest)).
  { intros rest Hrest Hall.
    exists e1, (EvPutenv "JAVA_HOME" jh :: EvWalk jh :: rest). split; [|split].
    - eapply steps_trans; [exact Hs1|].
      exact (steps_trans _ _ _ _ _ Hs2 Hrest).
    - exact Ha1.
    - right. exists jh, rest. auto. }
  destruct o as [ts|].
  2:{ intros [= <- <-]. apply (Hstop []); [apply steps_refl|constructor]. }
  destruct (truthy (Some ts)).
  2:{ intros [= <- <-]. apply (Hstop []); [apply steps_refl|constructor]. }
  destruct (_find_keytool jh s2) as [[o|e] s3] eqn:Ekt;
    destruct (emits_keytool__find_keytool _ _ _ _ Ekt) as (e4 & Hs4 & Ha4).
  2:{ intros [= <- <-]. now apply (Hstop e4). }
  destruct o as [kt|].
  2:{ intros [= <- <-]. now apply (Hstop e4). }
  destruct (truthy (Some kt)).
  2:{ intros [= <- <-]. now apply (Hstop e4). }
  intros Hconv.
  assert (Hkt : is_keytool_path kt = true).
  { eapply keytool_candidates_paths, _find_keytool_loop_member, Ekt. }
  destruct (emits_keytool_converge _ _ _ _ _ _ _ Hkt _ _ _ Hconv) as (e5 & Hs5 & Ha5).
  apply (Hstop (e4 ++ e5)%list).
  - eapply steps_trans; eauto.
  - apply Forall_app; auto.
Qed.

(** ** Idempotence on a host that keeps its side of the contract *)


Lemma same_discovery_files w w' : same_discovery w w' -> same_files w w'.
Proof. intros (Hr & Hd & Hw & _). repeat split; assumption. Qed.


Lemma same_discovery_answer w w' : same_discovery w w' -> shell_answer w' = shell_answer w.
Proof.
  intros (_ & _ & _ & Hp). specialize (Hp bash_query eq_refl).
  unfold shell_answer, check_output. cbn [world trace].
  destruct (popen w bash_query) as [r1 x1], (popen w' bash_query) as [r2 x2].
  simpl in Hp. subst r2. destruct r1 as [rc out|]; [destruct (rc =? 0)|]; reflexivity.
Qed.













Section With_contract.
Variable exported : W -> option string.
Hypothesis contract : host_contract exported.





End With_contract.


End Engine.

(** ** The sample host satisfies the contract *)

Module SampleHostFacts.
Import SampleHost.

Lemma spawn_probe_keeps_host h argv :
  is_bash_query argv || is_help argv = true -> snd (spawn h argv) = h.
Proof.
  destruct argv as [|prog [|o [|script [|x rest]]]]; try discriminate.
  - intros _. unfold spawn, keytool.
    destruct (String.eqb prog "/bin/bash"); [reflexivity|].
    destruct (mem prog (keytools h)); [|reflexivity].
    destruct (String.eqb o "-help"); reflexivity.
  - intros _. unfold spawn, keytool.
    destruct (String.eqb prog "/bin/bash"); [reflexivity|].
    destruct (mem prog (keytools h)); reflexivity.
Qed.

Lemma same_installation_discovery h h' :
  same_installation h h' -> same_discovery h h'.
Proof.
  intros (Hd & Hl & Ht & Hs & Hk & Hg & He). repeat split.
  - intros p. simpl. unfold realpath. now rewrite Hl.
  - intros p. simpl. unfold isdir. now rewrite Hd.
  - intros top. simpl. unfold walk. now rewrite Ht.
  - intros argv Hq. simpl.
    destruct argv as [|prog [|o [|script [|x rest]]]]; try discriminate.
    + unfold spawn, keytool. rewrite Hk.
      destruct (String.eqb prog "/bin/bash"); [reflexivity|].
      destruct (mem prog (keytools h)); [|reflexivity].
      destruct (String.eqb o "-help"); reflexivity.
    + unfold spawn, keytool. rewrite Hk, Hs.
      destruct (String.eqb prog "/bin/bash"); [reflexivity|].
      destruct (mem prog (keytools h)); reflexivity.
Qed.

Lemma same_installation_refl h : same_installation h h.
Proof. repeat split. Qed.

Lemma setenv_same k v h : same_installation h (setenv k v h).
Proof. repeat split. Qed.

Lemma add_alias_same a h : same_installation h (add_alias a h).
Proof. repeat split. Qed.

Lemma keytool_same h opts : same_installation h (snd (keytool h opts)).
Proof.
  unfold keytool.
  repeat match goal with
         | |- context [match ?x with _ => _ end] => destruct x
         end;
    cbn [snd]; auto using same_installation_refl, add_alias_same.
Qed.

Lemma spawn_same h argv : same_installation h (snd (spawn h argv)).
Proof.
  unfold spawn. destruct argv as [|prog rest]; [apply same_installation_refl|].
  destruct (String.eqb prog "/bin/bash").
  - destruct rest as [|a [|b [|c r]]]; apply same_installation_refl.
  - destruct (mem prog (keytools h)); [apply keytool_same|apply same_installation_refl].
Qed.

Lemma replay1_same e h : same_installation h (replay1 e h).
Proof.
  destruct e; simpl; auto using same_installation_refl, setenv_same, spawn_same.
Qed.

Lemma list_alias_setenv k v h kt ts alias storepass :
  fst (spawn (setenv k v h) (kt :: list_alias_opts ts alias storepass))
  = fst (spawn h (kt :: list_alias_opts ts alias storepass)).
Proof.
  unfold spawn, list_alias_opts, keytool, opens_store. cbn [keytools setenv store password aliases].
  destruct (String.eqb kt "/bin/bash"); [reflexivity|].
  destruct (mem kt (keytools h)); [|reflexivity].
  cbn [String.eqb Ascii.eqb Bool.eqb].
  destruct (String.eqb ts (store h) && String.eqb storepass (password h)); [|reflexivity].
  destruct (mem alias (aliases h)); reflexivity.
Qed.

Lemma keytool_environ h opts : environ (snd (keytool h opts)) = environ h.
Proof.
  unfold keytool.
  repeat match goal with
         | |- context [match ?x with _ => _ end] => destruct x
         end;
    reflexivity.
Qed.

Lemma spawn_environ h argv : environ (snd (spawn h argv)) = environ h.
Proof.
  unfold spawn. destruct argv as [|prog rest]; [reflexivity|].
  destruct (String.eqb prog "/bin/bash").
  - destruct rest as [|a [|b [|c r]]]; reflexivity.
  - destruct (mem prog (keytools h)); [apply keytool_environ|reflexivity].
Qed.

Lemma sample_host_contract : host_contract exported_home.
Proof.
  split.
  - intros v h. reflexivity.
  - intros argv h _. unfold exported_home. simpl. now rewrite spawn_environ.
  - intros argv h _. apply same_installation_discovery, spawn_same.
  - intros v h _. apply same_installation_discovery, setenv_same.
  - intros v h. apply same_discovery_files, same_installation_discovery, setenv_same.
  - intros v h Ha. rewrite <- Ha.
    apply same_discovery_answer, same_installation_discovery, setenv_same.
  - intros argv h kt ts alias storepass Hc (out & Hl).
    exists out. simpl. simpl in Hl.
    now rewrite (spawn_probe_keeps_host h argv Hc).
  - intros v h kt ts alias storepass _ (out & Hl).
    exists out. simpl. simpl in Hl. rewrite <- Hl. apply list_alias_setenv.
  - intros h kt cert_file ts alias storepass out h' _. simpl.
    unfold alias_listed. simpl.
    unfold spawn, importcert_opts, list_alias_opts, keytool.
    destruct (String.eqb kt "/bin/bash"); [discriminate|].
    destruct (mem kt (keytools h)) eqn:Ek; [|discriminate].
    cbn [String.eqb Ascii.eqb Bool.eqb].
    destruct (opens_store h ts storepass) eqn:Eo; [|discriminate].
    destruct (mem cert_file (good_certs h)); [|discriminate].
    destruct (mem alias (aliases h)); [discriminate|].
    intros [= _ <-].
    unfold opens_store in *. cbn [keytools add_alias store password aliases].
    rewrite Ek, Eo. unfold mem at 1. cbn [existsb]. rewrite String.eqb_refl.
    eexists. reflexivity.
Qed.

Lemma spawn_not_import h argv :
  is_importcert argv = false -> snd (spawn h argv) = h.
Proof.
  intros Hni. unfold spawn.
  destruct argv as [|prog [|o rest]].
  - reflexivity.
  - destruct (String.eqb prog "/bin/bash"); [reflexivity|].
    destruct (mem prog (keytools h)); reflexivity.
  - simpl in Hni. unfold keytool.
    repeat match goal with
           | |- context [match ?x with _ => _ end] => destruct x eqn:?
           end;
      cbn [snd]; try reflexivity; congruence.
Qed.

(** The read-only probes leave the aliases of the store as they are. *)
Lemma probe_keeps_aliases e h :
  probe_event e = true -> aliases (replay1 e h) = aliases h.
Proof.
  intros Hp. pose proof (is_probe_not_mutating e Hp) as Hnm.
  destruct e as [| |k v| |argv]; try reflexivity.
  simpl. now rewrite (spawn_not_import h argv Hnm).
Qed.

End SampleHostFacts.

(** ** The host that needs the export satisfies the contract *)

Module InheritingHostFacts.
Import InheritingHost.









End InheritingHostFacts.

(** ** The engine on the sample host *)

Section Scenarios.
Import SampleHost.

(** Discovery on a concrete host, by evaluation. *)
Ltac discovery_by_evaluation h :=
  exists (mkSt h [EvExec bash_query]),
         (mkSt (setenv "JAVA_HOME" jdk8_home h)
               [EvExec bash_query; EvPutenv "JAVA_HOME" jdk8_home; EvWalk jdk8_home]);
  (split; [|split; [|split]]);
  [vm_compute; reflexivity|discriminate|vm_compute; reflexivity..].

(** Scenario A: [myca] is not in the store, the password and the
    certificate are good, live mode. *)
Lemma trust_cert_live_success_witness :
  exists r,
    trust_cert false "myca" myca_pem "myca" "changeit" None (mkSt jdk8 [])
    = (Returned r,
       mkSt (add_alias "myca" (setenv "JAVA_HOME" jdk8_home jdk8))
            (discovery_trace
             ++ [EvExec (system_keytool :: list_alias_opts jdk8_store "myca" "changeit");
                 EvExec (system_keytool :: list_opts jdk8_store "changeit");
                 EvExec (system_keytool :: printcert_opts myca_pem);
                 EvExec (system_keytool
                         :: importcert_opts myca_pem jdk8_store "myca" "changeit")]))
    /\ name r = "myca"
    /\ result r = rc_success (result_code false)
    /\ result r = PyTrue
    /\ comment r
       = "Certificate " ++ dquote ++ "myca" ++ dquote ++ " was added as a trusted root."
    /\ changes r = <["new" := "myca"]> (<["old" := ""]> ∅)
    /\ changes r !! "old" = Some ""
    /\ changes r !! "new" = Some "myca".
Proof.
  apply (trust_cert_live_success "myca" myca_pem "myca" "changeit" None (mkSt jdk8 [])
           jdk8_home jdk8_store system_keytool (discovered jdk8)
           1 [(Stdout, "keytool error: java.lang.Exception: Alias <myca> does not exist")]
           (setenv "JAVA_HOME" jdk8_home jdk8)
           [(Stdout, "Keystore type: JKS")] (setenv "JAVA_HOME" jdk8_home jdk8)
           [(Stdout, "Owner: CN=Example Root")] (setenv "JAVA_HOME" jdk8_home jdk8)
           [(Stderr, "Certificate was added to keystore")]
           (add_alias "myca" (setenv "JAVA_HOME" jdk8_home jdk8))).
  - discovery_by_evaluation jdk8.
  - vm_compute; reflexivity.
  - discriminate.
  - vm_compute; reflexivity.
  - vm_compute; reflexivity.
  - vm_compute; reflexivity.
Defined.

(** Scenario B: the alias is already in the store. *)
Lemma trust_cert_alias_present_witness :
  trust_cert true "verisign" myca_pem "verisignclass3ca" "changeit" None (mkSt jdk8 [])
  = (Returned (mkRet "verisign" ∅ PyTrue "CA alias exists in trust store."),
     mkSt (setenv "JAVA_HOME" jdk8_home jdk8)
          (discovery_trace
           ++ [EvExec (system_keytool
                       :: list_alias_opts jdk8_store "verisignclass3ca" "changeit")]))
  /\ rc_none (result_code true) = PyTrue
  /\ exists evs, discovery_trace = ([] ++ evs)%list /\ Forall is_discovery evs.
Proof.
  apply (trust_cert_alias_present true "verisign" myca_pem "verisignclass3ca" "changeit"
           None (mkSt jdk8 []) jdk8_home jdk8_store system_keytool (discovered jdk8)
           [(Stdout, "verisignclass3ca, trustedCertEntry")]
           (setenv "JAVA_HOME" jdk8_home jdk8)).
  - discovery_by_evaluation jdk8.
  - vm_compute; reflexivity.
Defined.

(** Scenario C: the store password is wrong, in test mode. *)
Lemma trust_cert_store_unreadable_witness :
  trust_cert true "myca" myca_pem "myca" "letmein" None (mkSt jdk8 [])
  = (Returned
       (mkRet "myca" ∅ (rc_failure (result_code true))
          ("Keystore " ++ jdk8_store ++ " problem:" ++ nl
           ++ "keytool error: java.io.IOException: Keystore was tampered with, or password was incorrect")),
     mkSt (setenv "JAVA_HOME" jdk8_home jdk8)
          (discovery_trace
           ++ [EvExec (system_keytool :: list_alias_opts jdk8_store "myca" "letmein");
               EvExec (system_keytool :: list_opts jdk8_store "letmein")]))
  /\ rc_failure (result_code true) = PyNone
  /\ exists evs, discovery_trace = ([] ++ evs)%list /\ Forall not_mutating evs.
Proof.
  apply (trust_cert_store_unreadable true "myca" myca_pem "myca" "letmein" None
           (mkSt jdk8 []) jdk8_home jdk8_store system_keytool (discovered jdk8)
           1 [(Stdout, "keytool error: java.io.IOException: Keystore was tampered with, or password was incorrect")]
           (setenv "JAVA_HOME" jdk8_home jdk8)
           1 [(Stdout, "keytool error: java.io.IOException: Keystore was tampered with, or password was incorrect")]
           (setenv "JAVA_HOME" jdk8_home jdk8)).
  - discovery_by_evaluation jdk8.
  - vm_compute; reflexivity.
  - discriminate.
  - vm_compute; reflexivity.
  - discriminate.
Defined.

(** Scenario E: the login shell exits with status 1 and there is no
    override. *)
Lemma trust_cert_java_not_installed_witness :
  trust_cert false "myca" myca_pem "myca" "changeit" None
    (mkSt (with_shell (Exited 1 [(Stderr, "bash: JAVA_HOME: unbound variable")]) jdk8) [])
  = (Returned (mkRet "myca" ∅ (rc_none (result_code false)) "Java is not installed"),
     mkSt (with_shell (Exited 1 [(Stderr, "bash: JAVA_HOME: unbound variable")]) jdk8)
          ([] ++ [EvExec bash_query]))
  /\ rc_none (result_code false) = PyTrue.
Proof.
  apply (trust_cert_java_not_installed false "myca" myca_pem "myca" "changeit"
           (mkSt (with_shell (Exited 1 [(Stderr, "bash: JAVA_HOME: unbound variable")])
                    jdk8) [])
           1 [(Stderr, "bash: JAVA_HOME: unbound variable")]).
  - vm_compute; reflexivity.
  - left. discriminate.
Defined.

(** No override, and [/bin/bash] cannot be started. *)
Lemma trust_cert_shell_not_started_witness :
  trust_cert true "myca" myca_pem "myca" "changeit" None
    (mkSt (with_shell NotLaunched jdk8) [])
  = (Raised OSError, mkSt (with_shell NotLaunched jdk8) ([] ++ [EvExec bash_query])).
Proof.
  refine (trust_cert_shell_not_started true "myca" myca_pem "myca" "changeit"
            (mkSt (with_shell NotLaunched jdk8) []) (with_shell NotLaunched jdk8) _).
  vm_compute; reflexivity.
Defined.

(** The override [/usr/lib/jvm/default] is a symlink to a directory and is
    accepted as it is; [/opt/java] is not a directory, so the shell is
    asked; the shell's answer is returned with no check. *)
Lemma find_java_home_checks_override_only_witness :
  _find_java_home (Some "/usr/lib/jvm/default") (mkSt jdk8 [])
  = (Returned (Some "/usr/lib/jvm/default"),
     mkSt jdk8 [EvRealpath "/usr/lib/jvm/default"; EvIsdir "/usr/lib/jvm/java-8"])
  /\ _find_java_home (Some "/opt/java") (mkSt jdk8 [])
     = _find_java_home_shell (mkSt jdk8 [EvRealpath "/opt/java"; EvIsdir "/opt/java"])
  /\ _find_java_home_shell (mkSt (with_shell (Exited 0 [(Stdout, "/no/such/dir")]) jdk8) [])
     = (Returned (Some "/no/such/dir"),
        mkSt (with_shell (Exited 0 [(Stdout, "/no/such/dir")]) jdk8) [EvExec bash_query]).
Proof.
  split; [|split].
  - refine (proj1 (find_java_home_checks_override_only (mkSt jdk8 []))
                   "/usr/lib/jvm/default" _ _);
      [discriminate|vm_compute; reflexivity].
  - refine (proj1 (proj2 (find_java_home_checks_override_only (mkSt jdk8 [])))
                   "/opt/java" _ _);
      [vm_compute; reflexivity|discriminate].
  - refine (proj2 (proj2 (proj2 (proj2
              (find_java_home_checks_override_only
                 (mkSt (with_shell (Exited 0 [(Stdout, "/no/such/dir")]) jdk8) [])))))
              [(Stdout, "/no/such/dir")] _ _).
    vm_compute; reflexivity.
Defined.

(** The status of scenario C in test mode is one of the three codes. *)
Lemma trust_cert_status_codes_witness :
  is_code true PyNone
  /\ result_code false = mkResultCode PyTrue PyFalse PyTrue
  /\ result_code true = mkResultCode PyTrue PyNone PyNone
  /\ PyNone <> PyFalse /\ PyNone <> PyTrue.
Proof.
  exact (trust_cert_status_codes true "myca" myca_pem "myca" "letmein" None
           (mkSt jdk8 []) _ _ eq_refl).
Defined.

(** Dry run of scenario A: the apply step is reached, nothing is imported
    and the aliases of the store are those of [jdk8]. *)
Lemma trust_cert_test_mode_witness :
  trust_cert true "myca" myca_pem "myca" "changeit" None (mkSt jdk8 [])
  = (Returned (mkRet "myca" (<["new" := "myca"]> (<["old" := ""]> ∅)) PyNone
                 ("Certificate " ++ dquote ++ "myca" ++ dquote
                  ++ " will be added as a trusted root.")),
     mkSt (setenv "JAVA_HOME" jdk8_home jdk8)
          (discovery_trace
           ++ [EvExec (system_keytool :: list_alias_opts jdk8_store "myca" "changeit");
               EvExec (system_keytool :: list_opts jdk8_store "changeit");
               EvExec (system_keytool :: printcert_opts myca_pem)]))
  /\ (exists evs,
         steps (mkSt jdk8 [])
               (mkSt (setenv "JAVA_HOME" jdk8_home jdk8)
                     (discovery_trace
                      ++ [EvExec (system_keytool
                                  :: list_alias_opts jdk8_store "myca" "changeit");
                          EvExec (system_keytool :: list_opts jdk8_store "changeit");
                          EvExec (system_keytool :: printcert_opts myca_pem)]))
               evs
         /\ Forall is_probe evs /\ Forall not_mutating evs)
  /\ aliases (setenv "JAVA_HOME" jdk8_home jdk8) = aliases jdk8
  /\ rc_success (result_code true) = PyNone.
Proof.
  assert (Hrun :
            trust_cert true "myca" myca_pem "myca" "changeit" None (mkSt jdk8 [])
            = (Returned (mkRet "myca" (<["new" := "myca"]> (<["old" := ""]> ∅)) PyNone
                           ("Certificate " ++ dquote ++ "myca" ++ dquote
                            ++ " will be added as a trusted root.")),
               mkSt (setenv "JAVA_HOME" jdk8_home jdk8)
                    (discovery_trace
                     ++ [EvExec (system_keytool
                                 :: list_alias_opts jdk8_store "myca" "changeit");
                         EvExec (system_keytool :: list_opts jdk8_store "changeit");
                         EvExec (system_keytool :: printcert_opts myca_pem)])))
    by (vm_compute; reflexivity).
  destruct (trust_cert_test_mode _ _ _ _ _ _ _ _ Hrun) as (Hev & Hframe & Hpath).
  split; [exact Hrun|]. split; [exact Hev|]. split.
  - exact (Hframe (list string) aliases SampleHostFacts.probe_keeps_aliases).
  - refine (proj1 (proj2
             (Hpath jdk8_home jdk8_store system_keytool (discovered jdk8)
                1 [(Stdout, "keytool error: java.lang.Exception: Alias <myca> does not exist")]
                (setenv "JAVA_HOME" jdk8_home jdk8)
                [(Stdout, "Keystore type: JKS")] (setenv "JAVA_HOME" jdk8_home jdk8)
                [(Stdout, "Owner: CN=Example Root")]
                (setenv "JAVA_HOME" jdk8_home jdk8) _ _ _ _ _))).
    + discovery_by_evaluation jdk8.
    + vm_compute; reflexivity.
    + discriminate.
    + vm_compute; reflexivity.
    + vm_compute; reflexivity.
Defined.


(** C1 (defect): [/usr/bin/keytool] is absent while
    [<java_home>/bin/keytool] is there.  The first [check_output] of
    [_find_keytool] raises [OSError], which [except CalledProcessError]
    does not catch: the second candidate is never tried and [trust_cert]
    returns no dict.  The same happens in [_find_java_home] when
    [/bin/bash] cannot be started. *)
Theorem trust_cert_missing_program_escapes :
  trust_cert false "myca" myca_pem "myca" "changeit" None
    (mkSt (with_keytools ["/usr/lib/jvm/java-8/bin/keytool"] jdk8) [])
  = (Raised OSError,
     mkSt (setenv "JAVA_HOME" jdk8_home
             (with_keytools ["/usr/lib/jvm/java-8/bin/keytool"] jdk8))
          discovery_trace)
  /\ trust_cert false "myca" myca_pem "myca" "changeit" None
       (mkSt (with_shell NotLaunched jdk8) [])
     = (Raised OSError, mkSt (with_shell NotLaunched jdk8) [EvExec bash_query]).
Proof. split; vm_compute; reflexivity. Qed.

(** C8 (defect): keytool rejects [/etc/ssl/bad.pem] and says why on its
    standard error.  The certificate probe is the one [check_output] of the
    module called without [stderr=subprocess.STDOUT], so the comment ends
    after the newline: the error text is not in it. *)
Theorem trust_cert_bad_certificate_loses_stderr :
  popen (setenv "JAVA_HOME" jdk8_home jdk8)
        (system_keytool :: printcert_opts "/etc/ssl/bad.pem")
  = (Exited 1 [(Stderr, "keytool error: java.lang.Exception: Failed to parse input")],
     setenv "JAVA_HOME" jdk8_home jdk8)
  /\ trust_cert false "myca" "/etc/ssl/bad.pem" "myca" "changeit" None (mkSt jdk8 [])
     = (Returned (mkRet "myca" ∅ PyFalse
                    ("File /etc/ssl/bad.pem is not a valid certificate:" ++ nl)),
        mkSt (setenv "JAVA_HOME" jdk8_home jdk8)
             (discovery_trace
              ++ [EvExec (system_keytool :: list_alias_opts jdk8_store "myca" "changeit");
                  EvExec (system_keytool :: list_opts jdk8_store "changeit");
                  EvExec (system_keytool :: printcert_opts "/etc/ssl/bad.pem")])).
Proof. split; vm_compute; reflexivity. Qed.

End Scenarios.

Section More_scenarios.
Import SampleHost.

(** The first directory of [opt_java_tree] holds [cacerts.bak] only; the
    second holds [CACERTS] and [cacerts]; the third is never looked at. *)
Lemma find_trust_store_first_match_witness :
  _find_trust_store "/opt/java" (mkSt ScriptedHost.no_keytool [])
  = (Returned (Some (os_path_join "/opt/java/lib/security" "cacerts")),
     mkSt ScriptedHost.no_keytool ([] ++ [EvWalk "/opt/java"]))
  /\ os_path_join "/opt/java/lib/security" "cacerts" = "/opt/java/lib/security/cacerts".
Proof.
  split; [|reflexivity].
  apply (find_trust_store_first_match "/opt/java" (mkSt ScriptedHost.no_keytool [])
           [("/opt/java", ["bin"; "lib"], ["release"; "cacerts.bak"])]
           "/opt/java/lib/security" [] ["CACERTS"; "cacerts"; "java.security"]
           [("/opt/java/jre/lib/security", [], ["cacerts"])]).
  - reflexivity.
  - intros t [<-|[]] [Hc|[Hc|[]]]; discriminate.
  - right. left. reflexivity.
Defined.

Lemma find_trust_store_none_iff_witness :
  _find_trust_store "/opt/java" (mkSt ScriptedHost.no_store [])
  = (Returned None, mkSt ScriptedHost.no_store ([] ++ [EvWalk "/opt/java"])).
Proof.
  apply (proj2 (find_trust_store_none_iff "/opt/java" (mkSt ScriptedHost.no_store []))).
  intros t [<-|[]] [Hc|[Hc|[Hc|[]]]]; discriminate.
Defined.

Lemma find_keytool_prefers_system_witness :
  _find_keytool jdk8_home (mkSt jdk8 [])
  = (Returned (Some "/usr/bin/keytool"),
     mkSt jdk8 ([] ++ [EvExec ["/usr/bin/keytool"; "-help"]])).
Proof.
  apply (find_keytool_prefers_system jdk8_home (mkSt jdk8 [])
           [(Stderr, "Key and Certificate Management Tool")] jdk8).
  vm_compute; reflexivity.
Defined.

Lemma find_keytool_falls_back_witness :
  _find_keytool "/opt/java" (mkSt ScriptedHost.home_keytool_only [])
  = (Returned (if 0 =? 0 then Some ("/opt/java" ++ "/bin/keytool") else None),
     mkSt (ScriptedHost.skip 2 ScriptedHost.home_keytool_only)
          ([] ++ [EvExec ["/usr/bin/keytool"; "-help"];
                  EvExec ["/opt/java" ++ "/bin/keytool"; "-help"]])).
Proof.
  apply (find_keytool_falls_back "/opt/java" (mkSt ScriptedHost.home_keytool_only [])
           1 [(Stderr, "wrapper: no default JVM")]
           (ScriptedHost.skip 1 ScriptedHost.home_keytool_only)
           0 [(Stderr, "Key and Certificate Management Tool")]
           (ScriptedHost.skip 2 ScriptedHost.home_keytool_only)).
  - vm_compute; reflexivity.
  - discriminate.
  - vm_compute; reflexivity.
Defined.

Lemma trust_cert_no_trust_store_witness :
  trust_cert true "myca" myca_pem "myca" "changeit" None (mkSt ScriptedHost.no_store [])
  = (Returned (mkRet "myca" ∅ PyNone "Could not find Java trust store."),
     mkSt (ScriptedHost.skip 1 ScriptedHost.no_store)
          ([EvExec bash_query] ++ [EvPutenv "JAVA_HOME" "/opt/java"; EvWalk "/opt/java"])).
Proof.
  refine (trust_cert_no_trust_store true "myca" myca_pem "myca" "changeit" None
            (mkSt ScriptedHost.no_store []) "/opt/java"
            (mkSt (ScriptedHost.skip 1 ScriptedHost.no_store) [EvExec bash_query])
            _ _ _).
  - vm_compute; reflexivity.
  - discriminate.
  - intros t [<-|[]] [Hc|[Hc|[Hc|[]]]]; discriminate.
Defined.

Lemma trust_cert_no_keytool_witness :
  trust_cert false "myca" myca_pem "myca" "changeit" None (mkSt ScriptedHost.no_keytool [])
  = (Returned (mkRet "myca" ∅ PyFalse "Could not find keytool binary."),
     mkSt (ScriptedHost.skip 3 ScriptedHost.no_keytool)
          [EvExec bash_query; EvPutenv "JAVA_HOME" "/opt/java"; EvWalk "/opt/java";
           EvExec ["/usr/bin/keytool"; "-help"];
           EvExec ["/opt/java/bin/keytool"; "-help"]])
  /\ exists evs,
      steps (mkSt ScriptedHost.no_keytool [])
            (mkSt (ScriptedHost.skip 3 ScriptedHost.no_keytool)
                  [EvExec bash_query; EvPutenv "JAVA_HOME" "/opt/java";
                   EvWalk "/opt/java"; EvExec ["/usr/bin/keytool"; "-help"];
                   EvExec ["/opt/java/bin/keytool"; "-help"]])
            evs
      /\ Forall is_discovery evs.
Proof.
  apply (trust_cert_no_keytool false "myca" myca_pem "myca" "changeit" None
           (mkSt ScriptedHost.no_keytool []) "/opt/java"
           (mkSt (ScriptedHost.skip 1 ScriptedHost.no_keytool) [EvExec bash_query])
           "/opt/java/lib/security/cacerts"
           (mkSt (ScriptedHost.skip 1 ScriptedHost.no_keytool)
                 [EvExec bash_query; EvPutenv "JAVA_HOME" "/opt/java";
                  EvWalk "/opt/java"])).
  - vm_compute; reflexivity.
  - discriminate.
  - vm_compute; reflexivity.
  - vm_compute; reflexivity.
Defined.

Lemma trust_cert_import_failure_witness :
  trust_cert false "myca" myca_pem "myca" "changeit" None
    (mkSt ScriptedHost.refused_import [])
  = (Returned
       (mkRet "myca" ∅ PyFalse
          (combined_of
             [(Stdout, "keytool error: java.io.FileNotFoundException: ");
              (Stderr, "/opt/java/lib/security/cacerts (Permission denied)")])),
     mkSt (ScriptedHost.skip 6 ScriptedHost.refused_import)
          ([EvExec bash_query; EvPutenv "JAVA_HOME" "/opt/java"; EvWalk "/opt/java";
            EvExec ["/usr/bin/keytool"; "-help"]]
           ++ [EvExec ("/usr/bin/keytool"
                       :: list_alias_opts "/opt/java/lib/security/cacerts" "myca"
                            "changeit");
               EvExec ("/usr/bin/keytool"
                       :: list_opts "/opt/java/lib/security/cacerts" "changeit");
               EvExec ("/usr/bin/keytool" :: printcert_opts myca_pem);
               EvExec ("/usr/bin/keytool"
                       :: importcert_opts myca_pem "/opt/java/lib/security/cacerts"
                            "myca" "changeit")])).
Proof.
  apply (trust_cert_import_failure "myca" myca_pem "myca" "changeit" None
           (mkSt ScriptedHost.refused_import [])
           "/opt/java" "/opt/java/lib/security/cacerts" "/usr/bin/keytool"
           (mkSt (ScriptedHost.skip 2 ScriptedHost.refused_import)
                 [EvExec bash_query; EvPutenv "JAVA_HOME" "/opt/java";
                  EvWalk "/opt/java"; EvExec ["/usr/bin/keytool"; "-help"]])
           1 [(Stdout, "keytool error: java.lang.Exception: Alias <myca> does not exist")]
           (ScriptedHost.skip 3 ScriptedHost.refused_import)
           [(Stdout, "Keystore type: JKS")]
           (ScriptedHost.skip 4 ScriptedHost.refused_import)
           [(Stdout, "Owner: CN=Example Root")]
           (ScriptedHost.skip 5 ScriptedHost.refused_import)
           1 [(Stdout, "keytool error: java.io.FileNotFoundException: ");
              (Stderr, "/opt/java/lib/security/cacerts (Permission denied)")]
           (ScriptedHost.skip 6 ScriptedHost.refused_import)).
  - exists (mkSt (ScriptedHost.skip 1 ScriptedHost.refused_import) [EvExec bash_query]),
           (mkSt (ScriptedHost.skip 1 ScriptedHost.refused_import)
                 [EvExec bash_query; EvPutenv "JAVA_HOME" "/opt/java";
                  EvWalk "/opt/java"]).
    (split; [|split; [|split]]);
      [vm_compute; reflexivity|discriminate|vm_compute; reflexivity..].
  - vm_compute; reflexivity.
  - discriminate.
  - vm_compute; reflexivity.
  - vm_compute; reflexivity.
  - vm_compute; reflexivity.
  - discriminate.
Defined.

(** Scenario A, live: the dict of the successful import. *)
Lemma trust_cert_dict_invariant_witness :
  trust_cert false "myca" myca_pem "myca" "changeit" None (mkSt jdk8 [])
  = (Returned (mkRet "myca" (<["new" := "myca"]> (<["old" := ""]> ∅)) PyTrue
                 ("Certificate " ++ dquote ++ "myca" ++ dquote
                  ++ " was added as a trusted root.")),
     imported)
  /\ (<["new" := "myca"]> (<["old" := ""]> ∅) : gmap string string) <> ∅.
Proof.
  assert (Hrun :
            trust_cert false "myca" myca_pem "myca" "changeit" None (mkSt jdk8 [])
            = (Returned (mkRet "myca" (<["new" := "myca"]> (<["old" := ""]> ∅)) PyTrue
                           ("Certificate " ++ dquote ++ "myca" ++ dquote
                            ++ " was added as a trusted root.")),
               imported))
    by (vm_compute; reflexivity).
  split; [exact Hrun|].
  destruct (trust_cert_dict_invariant _ _ _ _ _ _ _ _ _ Hrun) as (_ & [Hc|(Hc & _)]).
  - discriminate Hc.
  - apply insert_non_empty.
Defined.

(** Scenario C: the wrong password in test mode, and what it predicts for
    the live run. *)
Lemma trust_cert_test_predicts_live_witness :
  trust_cert false "myca" myca_pem "myca" "letmein" None (mkSt jdk8 [])
  = (Returned
       (mkRet "myca" ∅ PyFalse
          ("Keystore " ++ jdk8_store ++ " problem:" ++ nl
           ++ "keytool error: java.io.IOException: Keystore was tampered with, or password was incorrect")),
     mkSt (setenv "JAVA_HOME" jdk8_home jdk8)
          (discovery_trace
           ++ [EvExec (system_keytool :: list_alias_opts jdk8_store "myca" "letmein");
               EvExec (system_keytool :: list_opts jdk8_store "letmein")])).
Proof.
  assert (Htest :
            trust_cert true "myca" myca_pem "myca" "letmein" None (mkSt jdk8 [])
            = (Returned
                 (mkRet "myca" ∅ PyNone
                    ("Keystore " ++ jdk8_store ++ " problem:" ++ nl
                     ++ "keytool error: java.io.IOException: Keystore was tampered with, or password was incorrect")),
               mkSt (setenv "JAVA_HOME" jdk8_home jdk8)
                    (discovery_trace
                     ++ [EvExec (system_keytool
                                 :: list_alias_opts jdk8_store "myca" "letmein");
                         EvExec (system_keytool :: list_opts jdk8_store "letmein")])))
    by (vm_compute; reflexivity).
  exact (proj1 (trust_cert_test_predicts_live _ _ _ _ _ _ _ _ Htest) eq_refl).
Defined.

(** Scenario A, live: the import closes the trace. *)
Lemma trust_cert_import_is_last_witness :
  exists evs,
    steps (mkSt jdk8 []) imported evs
    /\ (Forall is_probe evs
        \/ (false = false
            /\ exists evsd kt ts,
                evs = (evsd
                       ++ [EvExec (kt :: list_alias_opts ts "myca" "changeit");
                           EvExec (kt :: list_opts ts "changeit");
                           EvExec (kt :: printcert_opts myca_pem);
                           EvExec (kt :: importcert_opts myca_pem ts "myca" "changeit")])%list
                /\ Forall is_discovery evsd)).
Proof.
  refine (trust_cert_import_is_last false "myca" myca_pem "myca" "changeit" None
            (mkSt jdk8 []) _ imported _).
  vm_compute; reflexivity.
Defined.

(** Scenario A, live: the shell query, the export, the walk, then keytool
    only. *)
Lemma trust_cert_exports_java_home_first_witness :
  exists evs1 evs2,
    steps (mkSt jdk8 []) imported (evs1 ++ evs2)
    /\ Forall is_home_event evs1
    /\ (evs2 = []
        \/ exists jh rest,
            jh <> ""
            /\ evs2 = EvPutenv "JAVA_HOME" jh :: EvWalk jh :: rest
            /\ Forall is_keytool_call rest).
Proof.
  refine (trust_cert_exports_java_home_first false "myca" myca_pem "myca" "changeit"
            None (mkSt jdk8 []) _ imported _).
  vm_compute; reflexivity.
Defined.

End More_scenarios.
